(** * Stock transfers: ledger postings and invoice reconciliation

    A shallow embedding of [models/inventory/StockTransfer.ts] and of the
    properties its specification states about it.

    Conventions of the embedding.
    - A JavaScript property that may be absent is an [option]; [None] is
      [undefined] (and [null], which the code never tells apart from it).
    - A [number] is a [Z]: the model covers the whole-number values of the
      code's doubles, and [Money] amounts, which are integers of the
      smallest unit.  Fractions, [NaN] and the infinities are outside the
      model.  The code's [+], [-], [Math.min] and [Math.max] are exact on
      whole numbers as long as operands and results stay within
      [-2^53 .. 2^53]: a statement of order (a bound, a monotonicity) holds
      of the code without more ado, a statement that is an equation of
      sums carries the range of its numbers as hypotheses ([Js.exact],
      [quantitiesExact], [exactlySummable]).
    - A JavaScript object used as a dictionary is a [gmap string _] of
      its own properties that hold a number; the properties it inherits
      from [Object.prototype] are accounted for where the code meets
      them ([Js.inherited]).
    - [async]/[await] is sequential here, so an asynchronous method is a
      function into the error monad [Result]; a [throw] is [Throw].
    - The translation tag [t] is the identity on its interpolated text. *)

From stdpp Require Import base option list gmap strings numbers.

Local Open Scope string_scope.
Local Open Scope Z_scope.

(** ** JavaScript values and truthiness *)

Module Js.

(** What a dynamically typed numeric field can hold: nothing, a number, or
    a value of some other type (a string, a [Money] object, ...). *)
Inductive Value : Type :=
| Undefined
| Number (z : Z)
| Other.

(** [v ?? d] *)
Definition nullish (v : Value) (d : Z) : Value :=
  match v with
  | Undefined => Number d
  | _ => v
  end.

(** [!!s] for [s : string | undefined]: the empty string is falsy. *)
Definition truthyString (s : option string) : bool :=
  match s with
  | Some s => negb (String.eqb s "")
  | None => false
  end.

(** [!!n] for [n : number | undefined]: zero is falsy. *)
Definition truthyNumber (n : option Z) : bool :=
  match n with
  | Some n => negb (n =? 0)
  | None => false
  end.

(** [xs.join(sep)] *)
Fixpoint join (sep : string) (xs : list string) : string :=
  match xs with
  | [] => ""
  | [x] => x
  | x :: rest => x +:+ sep +:+ join sep rest
  end.

(** The names a plain object [{}] answers to before anything is stored in
    it: the members of [Object.prototype]. *)
Definition objectPrototypeMembers : list string :=
  ["constructor"; "__defineGetter__"; "__defineSetter__"; "hasOwnProperty";
   "__lookupGetter__"; "__lookupSetter__"; "isPrototypeOf";
   "propertyIsEnumerable"; "toString"; "valueOf"; "__proto__";
   "toLocaleString"].

(** [key in {}] *)
Definition inherited (key : string) : bool :=
  existsb (String.eqb key) objectPrototypeMembers.

(** A whole number that is not negative and small enough for the sum of
    two such numbers to be computed exactly by the code: [0 ≤ z ≤ 2^52]. *)
Definition exact (z : Z) : bool :=
  (0 <=? z) && (z <=? 2 ^ 52).

(** [s.includes(part)], as a proposition. *)
Definition includes (s part : string) : Prop :=
  ∃ before after, s = before +:+ part +:+ after.

End Js.

(** ** Data model *)

(** The members of [ModelNameEnum] this file mentions. *)
Inductive ModelNameEnum : Type :=
| Shipment
| PurchaseReceipt
| SalesInvoice
| PurchaseInvoice
| InventorySettings
| Account.

Global Instance ModelNameEnum_eq_dec : EqDecision ModelNameEnum.
Proof. solve_decision. Defined.

Definition ModelNameEnum_code (m : ModelNameEnum) : nat :=
  match m with
  | Shipment => 0
  | PurchaseReceipt => 1
  | SalesInvoice => 2
  | PurchaseInvoice => 3
  | InventorySettings => 4
  | Account => 5
  end%nat.

Definition ModelNameEnum_decode (n : nat) : ModelNameEnum :=
  match n with
  | 0 => Shipment
  | 1 => PurchaseReceipt
  | 2 => SalesInvoice
  | 3 => PurchaseInvoice
  | 4 => InventorySettings
  | _ => Account
  end%nat.

Global Instance ModelNameEnum_countable : Countable ModelNameEnum.
Proof.
  refine (inj_countable' ModelNameEnum_code ModelNameEnum_decode _).
  by intros [].
Defined.

(** ** Errors and the monad of asynchronous methods *)

Inductive Error : Type :=
| ValidationError (message : string)
| NotFoundError (schema : ModelNameEnum) (name : string).

Inductive Result (A : Type) : Type :=
| Ok (a : A)
| Throw (e : Error).

Arguments Ok {A} a.
Arguments Throw {A} e.

Global Instance Result_ret : MRet Result := @Ok.

Global Instance Result_bind : MBind Result :=
  λ A B k m,
    match m with
    | Ok a => k a
    | Throw e => Throw e
    end.

(** A line of a stock transfer ([StockTransferItem]). *)
Module StockTransferItem.
Record t : Type := mk {
  item : option string;
  rate : option Z;
  quantity : option Z;
  location : option string;
}.
End StockTransferItem.

(** A line of an invoice ([InvoiceItem]).  The reconciler reads [item] and
    [quantity] under a non-null assertion, and [stockNotTransferred] as a
    value that may be absent or of another type. *)
Module InvoiceItem.
Record t : Type := mk {
  item : string;
  quantity : Z;
  stockNotTransferred : Js.Value;
}.

(** [row.set('stockNotTransferred', v)] *)
Definition setStockNotTransferred (row : t) (v : Z) : t :=
  {| item := item row;
     quantity := quantity row;
     stockNotTransferred := Js.Number v |}.
End InvoiceItem.

Module Invoice.
Record t : Type := mk {
  items : option (list InvoiceItem.t);
  stockNotTransferred : option Z;
}.
End Invoice.

Inductive Status : Type :=
| Draft
| Submitted
| Cancelled.

Record StockTransfer : Type := mkStockTransfer {
  schemaName : ModelNameEnum;
  status : Status;
  grandTotal : option Z;
  backReference : option string;
  items : option (list StockTransferItem.t);
}.

(** A record of [_getTransferDetails] ([SMTransferDetails]). *)
Module TransferDetails.
Record t : Type := mk {
  item : option string;
  rate : option Z;
  quantity : option Z;
  fromLocation : option string;
  toLocation : option string;
}.
End TransferDetails.

(** The part of a schema field the validator reads. *)
Record Field : Type := mkField { label : string }.

(** The ambient application object [this.fyo]: the inventory settings
    single, the schema's fields, the account names of the database and the
    stored invoices. *)
Record Fyo : Type := mkFyo {
  singles_InventorySettings : option (gmap string string);
  getField : ModelNameEnum → string → Field;
  accounts : gset string;
  docs : gmap (ModelNameEnum * string) Invoice.t;
}.

(** ** Ledger postings *)

Module LedgerPosting.

Inductive Side : Type :=
| Debit
| Credit.

Global Instance Side_eq_dec : EqDecision Side.
Proof. solve_decision. Defined.

Record Entry : Type := mkEntry {
  account : option string;
  amount : Z;
  side : Side;
}.

(** Modelled from the spec: the class [LedgerPosting]
    ([models/Transactional/LedgerPosting]) is imported but not part of
    the sources at hand.  Its data is "an ordered sequence of entries,
    each {account, amount, side}, plus an optional balancing rounding
    entry". *)
Record t : Type := mk {
  entries : list Entry;
  rounding : option Entry;
}.

(** Modelled from the spec: [new LedgerPosting(doc, fyo)], a posting with
    no entry yet. *)
Definition new : t := {| entries := []; rounding := None |}.

(** Modelled from the spec: [posting.debit(account, amount)] appends a
    debit line. *)
Definition debit (acc : option string) (amt : Z) (p : t) : t :=
  {| entries := entries p ++ [mkEntry acc amt Debit];
     rounding := rounding p |}.

(** Modelled from the spec: [posting.credit(account, amount)] appends a
    credit line. *)
Definition credit (acc : option string) (amt : Z) (p : t) : t :=
  {| entries := entries p ++ [mkEntry acc amt Credit];
     rounding := rounding p |}.

Definition sumSide (s : Side) (es : list Entry) : Z :=
  foldr (λ e acc, if decide (side e = s) then amount e + acc else acc) 0 es.

(** Totals of a posting, its rounding entry included. *)
Definition total (s : Side) (p : t) : Z :=
  sumSide s (entries p) + sumSide s (option_list (rounding p)).

Section RoundOff.
Variable roundOffAccount : option string.

(** Modelled from the spec: [posting.makeRoundOffEntry()], "a
    rounding-adjustment entry is appended so total debits equal total
    credits exactly": the entry carries the difference of the two
    sides and sits on the lighter one. *)
Definition makeRoundOffEntry (p : t) : t :=
  let d := sumSide Debit (entries p) in
  let c := sumSide Credit (entries p) in
  {| entries := entries p;
     rounding :=
       Some (if c <? d
             then mkEntry roundOffAccount (d - c) Credit
             else mkEntry roundOffAccount (c - d) Debit) |}.
End RoundOff.

End LedgerPosting.

(** ** The methods of [StockTransfer] *)

Section StockTransferMethods.

(** The account of the rounding entry, read by [LedgerPosting]. *)
Variable roundOffAccount : option string.

(** [invoice.getStockNotTransferred()], a method of [Invoice] that is not
    part of the sources at hand: the aggregate of the invoice's lines. *)
Variable getStockNotTransferred : Invoice.t → Z.

(** [get isSales()] *)
Definition isSales (this : StockTransfer) : bool :=
  bool_decide (schemaName this = Shipment).

(** Modelled from the spec: the getters [isSubmitted] and [isCancelled]
    of the base class [Doc], which is not part of the sources at hand,
    read the lifecycle status "Draft | Submitted | Cancelled". *)
Definition isSubmitted (this : StockTransfer) : bool :=
  match status this with
  | Submitted => true
  | _ => false
  end.

(** Modelled from the spec: the getter [isCancelled] of [Doc], as
    [isSubmitted] above. *)
Definition isCancelled (this : StockTransfer) : bool :=
  match status this with
  | Cancelled => true
  | _ => false
  end.

(** [this.fyo.singles.InventorySettings?.[setting]] *)
Definition inventorySetting (fyo : Fyo) (setting : string) : option string :=
  settings ← singles_InventorySettings fyo; settings !! setting.

(** [this.fyo.getValue(schemaName, fieldname)], for the single the code
    reads it from: the same document as [singles.InventorySettings]. *)
Definition getValue (fyo : Fyo) (schema : ModelNameEnum) (fieldname : string)
  : option string :=
  match schema with
  | InventorySettings => inventorySetting fyo fieldname
  | _ => None
  end.

(** [this.fyo.db.exists(schemaName, name)] *)
Definition db_exists (fyo : Fyo) (schema : ModelNameEnum) (name : string)
  : bool :=
  match schema with
  | Account => bool_decide (name ∈ accounts fyo)
  | _ => bool_decide (is_Some (docs fyo !! (schema, name)))
  end.

(** [this.fyo.doc.getDoc(schemaName, name)] *)
Definition getDoc (fyo : Fyo) (schema : ModelNameEnum) (name : string)
  : Result Invoice.t :=
  match docs fyo !! (schema, name) with
  | Some doc => Ok doc
  | None => Throw (NotFoundError schema name)
  end.

(** [invoice.setAndSync('stockNotTransferred', v)]: the invoice, with the
    lines as they were set, is written back under its name. *)
Definition setAndSync (fyo : Fyo) (schema : ModelNameEnum) (name : string)
    (invoice : Invoice.t) (v : Z) : Fyo :=
  {| singles_InventorySettings := singles_InventorySettings fyo;
     getField := getField fyo;
     accounts := accounts fyo;
     docs := <[(schema, name) :=
                 {| Invoice.items := Invoice.items invoice;
                    Invoice.stockNotTransferred := Some v |}]> (docs fyo) |}.

(** *** [_getTransferDetails] *)

Definition _getTransferDetails (this : StockTransfer)
  : list TransferDetails.t :=
  (λ row,
     let fromLocation :=
       if isSales this then StockTransferItem.location row else None in
     let toLocation :=
       if isSales this then None else StockTransferItem.location row in
     {| TransferDetails.item := StockTransferItem.item row;
        TransferDetails.rate := StockTransferItem.rate row;
        TransferDetails.quantity := StockTransferItem.quantity row;
        TransferDetails.fromLocation := fromLocation;
        TransferDetails.toLocation := toLocation |})
  <$> default [] (items this).

(** *** [validateAccounts] *)

Definition requiredSettings (this : StockTransfer) : list string :=
  ["stockInHand"] ++
  (if isSales this then ["costOfGoodsSold"]
   else ["stockReceivedButNotBilled"]).

(** One turn of the loop over the settings: the messages it pushes. *)
Definition checkSetting (fyo : Fyo) (messages : list string)
    (setting : string) : list string :=
  let value := inventorySetting fyo setting in
  let field := getField fyo InventorySettings setting in
  match value with
  | Some v =>
      if String.eqb v "" then
        messages ++ [label field +:+ " account not set in Inventory Settings."]
      else if db_exists fyo Account v then messages
      else messages ++ ["Account " +:+ v +:+ " does not exist."]
  | None =>
      messages ++ [label field +:+ " account not set in Inventory Settings."]
  end.

Definition collectMessages (fyo : Fyo) (this : StockTransfer)
  : list string :=
  foldl (checkSetting fyo) [] (requiredSettings this).

Definition validateAccounts (fyo : Fyo) (this : StockTransfer)
  : Result unit :=
  let messages := collectMessages fyo this in
  if (0 <? length messages)%nat
  then Throw (ValidationError (Js.join " " messages))
  else Ok tt.

(** *** [getPosting] *)

Definition getPosting (fyo : Fyo) (this : StockTransfer)
  : Result (option LedgerPosting.t) :=
  _ ← validateAccounts fyo this;
  let stockInHand := getValue fyo InventorySettings "stockInHand" in
  let amount := default 0 (grandTotal this) in
  let posting := LedgerPosting.new in
  let posting :=
    if isSales this then
      let costOfGoodsSold :=
        getValue fyo InventorySettings "costOfGoodsSold" in
      LedgerPosting.credit stockInHand amount
        (LedgerPosting.debit costOfGoodsSold amount posting)
    else
      let stockReceivedButNotBilled :=
        getValue fyo InventorySettings "stockReceivedButNotBilled" in
      LedgerPosting.credit stockReceivedButNotBilled amount
        (LedgerPosting.debit stockInHand amount posting) in
  let posting := LedgerPosting.makeRoundOffEntry roundOffAccount posting in
  Ok (Some posting).

(** *** [_getTransferMap] *)

(** One turn of the [reduce]: a line without a truthy [item] or without a
    truthy [quantity] returns the accumulator as it is; otherwise
    [acc[item] ??= 0; acc[item] += quantity].

    The accumulator starts as the plain object [{}], and the map holds the
    numbers stored in it.  Under a key that [{}] inherits from
    [Object.prototype], [??=] finds the inherited function or object and
    assigns nothing, and [+=] then stores the concatenation of that value
    and the quantity, a string (under [__proto__], nothing at all): no
    number is ever stored under such a key, on this turn or a later one. *)
Definition addToTransferMap (acc : gmap string Z)
    (item : StockTransferItem.t) : gmap string Z :=
  if negb (Js.truthyString (StockTransferItem.item item)) then acc
  else if negb (Js.truthyNumber (StockTransferItem.quantity item)) then acc
  else
    match StockTransferItem.item item, StockTransferItem.quantity item with
    | Some key, Some quantity =>
        if Js.inherited key then acc
        else <[key := default 0 (acc !! key) + quantity]> acc
    | _, _ => acc
    end.

Definition _getTransferMap (this : StockTransfer) : gmap string Z :=
  foldl addToTransferMap ∅ (default [] (items this)).

(** *** [_updateBackReference] *)

(** The body of the loop over the invoice's lines: the line as [row.set]
    leaves it, and the map as the assignment to [transferMap[item]]
    leaves it. *)
Definition updateRow (cancelled : bool) (transferMap : gmap string Z)
    (row : InvoiceItem.t) : InvoiceItem.t * gmap string Z :=
  let item := InvoiceItem.item row in
  let quantity := InvoiceItem.quantity row in
  let notTransferred := Js.nullish (InvoiceItem.stockNotTransferred row) 0 in
  match transferMap !! item, notTransferred with
  | Some transferred, Js.Number notTransferred =>
      if cancelled then
        (InvoiceItem.setStockNotTransferred row
           (Z.min (notTransferred + transferred) quantity),
         <[item := Z.max (transferred + notTransferred - quantity) 0]>
           transferMap)
      else
        (InvoiceItem.setStockNotTransferred row
           (Z.max (notTransferred - transferred) 0),
         <[item := Z.max (transferred - notTransferred) 0]> transferMap)
  | _, _ => (row, transferMap)
  end.

(** The loop [for (const row of invoice.items ?? [])], in stored order. *)
Fixpoint updateRows (cancelled : bool) (transferMap : gmap string Z)
    (rows : list InvoiceItem.t) : list InvoiceItem.t * gmap string Z :=
  match rows with
  | [] => ([], transferMap)
  | row :: rest =>
      let '(row', transferMap') := updateRow cancelled transferMap row in
      let '(rest', transferMap'') :=
        updateRows cancelled transferMap' rest in
      (row' :: rest', transferMap'')
  end.

(** The invoice once the loop has run over its lines; an invoice without
    [items] is looped over as [[]] and keeps none. *)
Definition withRows (cancelled : bool) (transferMap : gmap string Z)
    (invoice : Invoice.t) : Invoice.t :=
  {| Invoice.items :=
       (λ rows, (updateRows cancelled transferMap rows).1)
       <$> Invoice.items invoice;
     Invoice.stockNotTransferred := Invoice.stockNotTransferred invoice |}.

Definition invoiceSchema (this : StockTransfer) : ModelNameEnum :=
  if isSales this then SalesInvoice else PurchaseInvoice.

Definition _updateBackReference (fyo : Fyo) (this : StockTransfer)
  : Result Fyo :=
  if negb (isCancelled this) && negb (isSubmitted this) then Ok fyo
  else if negb (Js.truthyString (backReference this)) then Ok fyo
  else
    match backReference this with
    | None => Ok fyo
    | Some name =>
        let schema := invoiceSchema this in
        invoice ← getDoc fyo schema name;
        let transferMap := _getTransferMap this in
        let invoice :=
          withRows (isCancelled this) transferMap invoice in
        let notTransferred := getStockNotTransferred invoice in
        Ok (setAndSync fyo schema name invoice notTransferred)
    end.

(** A sequence of lifecycle events on the shared store: each transfer of
    the list has just been submitted or cancelled and updates its back
    reference; an event that throws has written nothing. *)
Fixpoint reconcileAll (fyo : Fyo) (events : list StockTransfer) : Fyo :=
  match events with
  | [] => fyo
  | this :: rest =>
      match _updateBackReference fyo this with
      | Ok fyo' => reconcileAll fyo' rest
      | Throw _ => reconcileAll fyo rest
      end
  end.

End StockTransferMethods.

Arguments isSales : simpl never.

(** ** Predicates of the specification *)

(** [0 ≤ stockNotTransferred ≤ quantity] on an invoice line. *)
Definition lineInBounds (row : InvoiceItem.t) : bool :=
  match InvoiceItem.stockNotTransferred row with
  | Js.Number n => (0 <=? n) && (n <=? InvoiceItem.quantity row)
  | _ => false
  end.

(** Every quantity a transfer's lines carry is non-negative. *)
Definition quantitiesNonNegative (this : StockTransfer) : bool :=
  forallb
    (λ line, match StockTransferItem.quantity line with
             | Some q => 0 <=? q
             | None => true
             end)
    (default [] (items this)).

(** Every quantity a transfer map holds is non-negative. *)
Definition nonNegative (transferMap : gmap string Z) : Prop :=
  map_Forall (λ _ v, 0 ≤ v) transferMap.

(** The number the reconciler reads off a line: [stockNotTransferred ?? 0],
    when that is a number. *)
Definition lineValue (row : InvoiceItem.t) : option Z :=
  match Js.nullish (InvoiceItem.stockNotTransferred row) 0 with
  | Js.Number n => Some n
  | _ => None
  end.

(** The line's value plus, and minus, what the map holds for its item. *)
Definition linePlusResidual (transferMap : gmap string Z)
    (row : InvoiceItem.t) : option Z :=
  n ← lineValue row; t ← transferMap !! InvoiceItem.item row; Some (n + t).

Definition lineMinusResidual (transferMap : gmap string Z)
    (row : InvoiceItem.t) : option Z :=
  n ← lineValue row; t ← transferMap !! InvoiceItem.item row; Some (n - t).

(** The same transfer at another point of its lifecycle. *)
Definition withStatus (st : Status) (this : StockTransfer) : StockTransfer :=
  {| schemaName := schemaName this;
     status := st;
     grandTotal := grandTotal this;
     backReference := backReference this;
     items := items this |}.

(** The condition under which a submit can be undone line by line: every
    line the transfer reaches holds a number [n ≤ quantity], and the
    quantity [t] that reaches it is at most [n], unless the line was still
    untouched ([n = quantity]).  The map is threaded as the submit does. *)
Fixpoint restorable (transferMap : gmap string Z)
    (rows : list InvoiceItem.t) : bool :=
  match rows with
  | [] => true
  | row :: rest =>
      match transferMap !! InvoiceItem.item row with
      | None => true
      | Some t =>
          match InvoiceItem.stockNotTransferred row with
          | Js.Number n =>
              (n <=? InvoiceItem.quantity row)
              && ((t <=? n) || (n =? InvoiceItem.quantity row))
          | Js.Undefined => false
          | Js.Other => true
          end
      end
      && restorable (updateRow false transferMap row).2 rest
  end.

(** The amount of a transfer's posting: [this.grandTotal ?? pesa(0)]. *)
Definition postingAmount (this : StockTransfer) : Z :=
  default 0 (grandTotal this).

(** The setting of the account debited and of the account credited, by
    direction (the rule table of the posting). *)
Definition debitSetting (this : StockTransfer) : string :=
  if isSales this then "costOfGoodsSold" else "stockInHand".

Definition creditSetting (this : StockTransfer) : string :=
  if isSales this then "stockInHand" else "stockReceivedButNotBilled".

(** The validator in the words of the specification: "if unset, record
    <label> account not set; if set but the referenced account does not
    exist in the ledger, record Account <value> does not exist".  A setting
    is unset when it is absent or empty. *)
Definition problemOf (fyo : Fyo) (setting : string) : option string :=
  match inventorySetting fyo setting with
  | Some value =>
      if decide (value = "") then
        Some (label (getField fyo InventorySettings setting)
              +:+ " account not set in Inventory Settings.")
      else if decide (value ∈ accounts fyo) then None
      else Some ("Account " +:+ value +:+ " does not exist.")
  | None =>
      Some (label (getField fyo InventorySettings setting)
            +:+ " account not set in Inventory Settings.")
  end.

(** The transfer map in the words of the specification: "for each line
    with a defined item identifier and a defined (possibly zero) quantity,
    add the quantity to that item's running total". *)
Definition addToTransferMapSpec (acc : gmap string Z)
    (line : StockTransferItem.t) : gmap string Z :=
  match StockTransferItem.item line, StockTransferItem.quantity line with
  | Some key, Some quantity => <[key := default 0 (acc !! key) + quantity]> acc
  | _, _ => acc
  end.

Definition transferMapSpec (this : StockTransfer) : gmap string Z :=
  foldl addToTransferMapSpec ∅ (default [] (items this)).

(** The lines that add a number to the map: a non-empty item that is not
    the name of a member of [Object.prototype], and a non-zero quantity. *)
Definition contributes (line : StockTransferItem.t) : bool :=
  Js.truthyString (StockTransferItem.item line)
  && Js.truthyNumber (StockTransferItem.quantity line)
  && match StockTransferItem.item line with
     | Some key => negb (Js.inherited key)
     | None => false
     end.

(** The sum of the magnitudes of the quantities on a transfer's lines. *)
Definition absTotal (lines : list StockTransferItem.t) : Z :=
  foldr
    (λ line acc, Z.abs (default 0 (StockTransferItem.quantity line)) + acc)
    0 lines.

(** The quantities of a transfer are whole numbers whose running totals
    the code computes exactly, in whatever order: their magnitudes sum to
    [2^53] at most. *)
Definition exactlySummable (this : StockTransfer) : bool :=
  absTotal (default [] (items this)) <=? 2 ^ 53.

(** The quantities of a transfer are whole numbers, none negative, that
    sum to [2^52] at most: every quantity of its map is exact ([Js.exact])
    and exactly computed. *)
Definition quantitiesExact (this : StockTransfer) : bool :=
  forallb
    (λ line, match StockTransferItem.quantity line with
             | Some q => 0 <=? q
             | None => true
             end)
    (default [] (items this))
  && (absTotal (default [] (items this)) <=? 2 ^ 52).

(** The quantities of the contributing lines of one item, in order. *)
Definition quantitiesFor (key : string) (lines : list StockTransferItem.t)
  : list Z :=
  omap
    (λ line,
       if contributes line
          && bool_decide (StockTransferItem.item line = Some key)
       then StockTransferItem.quantity line
       else None)
    lines.

(** Exactly one of [fromLocation] and [toLocation] holds a value. *)
Definition exactlyOnePopulated (d : TransferDetails.t) : bool :=
  match TransferDetails.fromLocation d, TransferDetails.toLocation d with
  | Some _, None | None, Some _ => true
  | _, _ => false
  end.

(** The lines of a stored invoice. *)
Definition storedRows (fyo : Fyo) (schema : ModelNameEnum) (name : string)
  : list InvoiceItem.t :=
  match docs fyo !! (schema, name) with
  | Some invoice => default [] (Invoice.items invoice)
  | None => []
  end.

(** Modelled from the spec: the aggregate of an invoice, "sum of line
    values"; [Invoice.getStockNotTransferred] is not part of the sources at
    hand, and the methods above take it as a parameter.  The examples
    instantiate the parameter with this sum. *)
Definition sumOfLines (invoice : Invoice.t) : Z :=
  foldr
    (λ row acc,
       match Js.nullish (InvoiceItem.stockNotTransferred row) 0 with
       | Js.Number n => n + acc
       | _ => acc
       end)
    0 (default [] (Invoice.items invoice)).

(** ** Sample documents *)

Module Samples.

Definition settings : gmap string string :=
  <["stockInHand" := "Stock In Hand"]>
    (<["costOfGoodsSold" := "Cost of Goods Sold"]>
       (<["stockReceivedButNotBilled" := "Stock Received But Not Billed"]>
          ∅)).

Definition fieldOf (schema : ModelNameEnum) (setting : string) : Field :=
  mkField setting.

Definition chart : gset string :=
  {[ "Stock In Hand"; "Cost of Goods Sold";
     "Stock Received But Not Billed" ]}.

Definition invoiceOf (rows : list InvoiceItem.t) : Invoice.t :=
  {| Invoice.items := Some rows; Invoice.stockNotTransferred := None |}.

(** A store with one sales invoice of the given lines, named [SINV-1]. *)
Definition fyoWith (rows : list InvoiceItem.t) : Fyo :=
  {| singles_InventorySettings := Some settings;
     getField := fieldOf;
     accounts := chart;
     docs := {[ (SalesInvoice, "SINV-1") := invoiceOf rows ]} |}.

Definition line (item : string) (quantity : Z) : StockTransferItem.t :=
  {| StockTransferItem.item := Some item;
     StockTransferItem.rate := Some 1;
     StockTransferItem.quantity := Some quantity;
     StockTransferItem.location := Some "Stores" |}.

(** A shipment against [SINV-1]. *)
Definition shipment (st : Status) (lines : list StockTransferItem.t)
  : StockTransfer :=
  {| schemaName := Shipment;
     status := st;
     grandTotal := None;
     backReference := Some "SINV-1";
     items := Some lines |}.

(** A purchase receipt of total 40, not linked to an invoice. *)
Definition receipt : StockTransfer :=
  {| schemaName := PurchaseReceipt;
     status := Submitted;
     grandTotal := Some 40;
     backReference := None;
     items := Some [line "A" 40] |}.

End Samples.

(** ** Further code of [StockTransfer] *)

(** [override duplicate()]: the copy the base class makes, with its
    [backReference] cleared.  [super.duplicate()] belongs to [Doc] and is a
    parameter. *)
Definition duplicate (superDuplicate : StockTransfer → StockTransfer)
    (this : StockTransfer) : StockTransfer :=
  let doc := superDuplicate this in
  {| schemaName := schemaName doc;
     status := status doc;
     grandTotal := grandTotal doc;
     backReference := None;
     items := items doc |}.

(** The value of a query filter: a plain value, or [['in', values]]. *)
Inductive FilterValue : Type :=
| Is (value : string)
| OneOf (values : list string).

(** [static filters.party]: [{role: ['in', [isSales ? 'Customer' :
    'Supplier', 'Both']]}] *)
Definition filters_party (doc : StockTransfer) : list (string * FilterValue) :=
  [("role", OneOf [if isSales doc then "Customer" else "Supplier"; "Both"])].

(** [static createFilters.party]: [{role: isSales ? 'Customer' :
    'Supplier'}] *)
Definition createFilters_party (doc : StockTransfer)
  : list (string * FilterValue) :=
  [("role", Is (if isSales doc then "Customer" else "Supplier"))].

(** The values a filter lets through. *)
Definition admits (f : FilterValue) (value : string) : bool :=
  match f with
  | Is v => String.eqb v value
  | OneOf vs => bool_decide (value ∈ vs)
  end.

(** The movement record read back as a line: its location is the one of
    the side that holds it. *)
Definition lineOfDetails (d : TransferDetails.t) : StockTransferItem.t :=
  {| StockTransferItem.item := TransferDetails.item d;
     StockTransferItem.rate := TransferDetails.rate d;
     StockTransferItem.quantity := TransferDetails.quantity d;
     StockTransferItem.location :=
       match TransferDetails.fromLocation d with
       | Some l => Some l
       | None => TransferDetails.toLocation d
       end |}.

(** The same transfer with other lines. *)
Definition withItems (lines : list StockTransferItem.t)
    (this : StockTransfer) : StockTransfer :=
  {| schemaName := schemaName this;
     status := status this;
     grandTotal := grandTotal this;
     backReference := backReference this;
     items := Some lines |}.

(** What an invoice still owes of one item: the sum of
    [stockNotTransferred ?? 0] over the lines of that item that hold a
    number. *)
Definition itemTotal (key : string) (rows : list InvoiceItem.t) : Z :=
  foldr
    (λ row acc,
       if decide (InvoiceItem.item row = key)
       then default 0 (lineValue row) + acc
       else acc)
    0 rows.

(** What the invoice asked of one item: the sum of [quantity] over the
    same lines. *)
Definition itemQuantity (key : string) (rows : list InvoiceItem.t) : Z :=
  foldr
    (λ row acc,
       if decide (InvoiceItem.item row = key)
       then match lineValue row with
            | Some _ => InvoiceItem.quantity row + acc
            | None => acc
            end
       else acc)
    0 rows.

(** [0 ≤ stockNotTransferred ?? 0 ≤ quantity] on every line of one item
    that holds a number. *)
Definition itemInBounds (key : string) (rows : list InvoiceItem.t) : bool :=
  forallb
    (λ row,
       if decide (InvoiceItem.item row = key)
       then match lineValue row with
            | Some n => (0 <=? n) && (n <=? InvoiceItem.quantity row)
            | None => true
            end
       else true)
    rows.


(** What is left of a quantity [t] of an item once the loop has gone over
    some lines: every line of the item that holds a number takes its part
    ([max(t − n, 0)] is left on submit, [max(t + n − q, 0)] on cancel),
    every other line leaves [t] as it is. *)
Definition residualAfter (cancelled : bool) (key : string) (t : Z)
    (rows : list InvoiceItem.t) : Z :=
  foldl
    (λ t row,
       if decide (InvoiceItem.item row = key)
       then match lineValue row with
            | Some n =>
                if cancelled
                then Z.max (t + n - InvoiceItem.quantity row) 0
                else Z.max (t - n) 0
            | None => t
            end
       else t)
    t rows.

(** ** The item document ([Item]) *)

Module Item.

Record t : Type := mk {
  trackItem : option bool;
  itemType : option string;
  for_ : option string;
  notInserted : bool;
}.

(** [formulas.incomeAccount]: ['Sales'] for a product, ['Service']
    otherwise, or the empty string when the ledger has no such account. *)
Definition incomeAccount (fyo : Fyo) (this : t) : string :=
  let accountName :=
    if decide (itemType this = Some "Product") then "Sales" else "Service" in
  let accountExists := db_exists fyo Account accountName in
  if accountExists then accountName else "".

(** [formulas.expenseAccount].  [cogs] is what
    [db.getAllRaw('Account', {filters: {accountType: 'Cost of Goods
    Sold'}})] answers: the names of the accounts of that type. *)
Definition expenseAccount (fyo : Fyo) (cogs : list string) (this : t)
  : option string :=
  match trackItem this with
  | Some true => inventorySetting fyo "stockReceivedButNotBilled"
  | _ =>
      match cogs with
      | [] => Some ""
      | first :: _ => Some first
      end
  end.

(** [getActions]: the labels of the actions whose [condition] holds. *)
Definition newSaleCondition (doc : t) : bool :=
  negb (notInserted doc) && negb (bool_decide (for_ doc = Some "Purchases")).

Definition newPurchaseCondition (doc : t) : bool :=
  negb (notInserted doc) && negb (bool_decide (for_ doc = Some "Sales")).

Definition availableActions (doc : t) : list string :=
  (if newSaleCondition doc then ["New Sale"] else [])
  ++ (if newPurchaseCondition doc then ["New Purchase"] else []).

End Item.

(** ** Reconciliation: bounds *)

Section Bounds.

Variable getStockNotTransferred : Invoice.t → Z.

Lemma addToTransferMap_nonNegative (acc : gmap string Z) line :
  nonNegative acc →
  match StockTransferItem.quantity line with
  | Some q => 0 ≤ q
  | None => True
  end →
  nonNegative (addToTransferMap acc line).
Proof.
  intros Hacc Hq. unfold addToTransferMap.
  destruct (StockTransferItem.item line) as [key|]; simpl; [|done].
  destruct (String.eqb key ""); simpl; [done|].
  destruct (StockTransferItem.quantity line) as [q|]; simpl; [|done].
  destruct (q =? 0); simpl; [done|].
  destruct (Js.inherited key); [done|].
  apply map_Forall_insert_2; [|done].
  destruct (acc !! key) as [v|] eqn:Hv; simpl; [|lia].
  specialize (Hacc key v Hv). simpl in Hacc. lia.
Qed.

Lemma _getTransferMap_nonNegative this :
  quantitiesNonNegative this = true → nonNegative (_getTransferMap this).
Proof.
  unfold quantitiesNonNegative, _getTransferMap.
  generalize (default [] (items this)) as lines.
  assert (Hgen : ∀ lines (acc : gmap string Z),
    nonNegative acc →
    forallb (λ line, match StockTransferItem.quantity line with
                     | Some q => 0 <=? q
                     | None => true
                     end) lines = true →
    nonNegative (foldl addToTransferMap acc lines)).
  { induction lines as [|line lines IH]; intros acc Hacc Hall; [done|].
    simpl in Hall. apply andb_prop in Hall as [Hq Hall]. simpl.
    apply IH; [|done]. apply addToTransferMap_nonNegative; [done|].
    destruct (StockTransferItem.quantity line); [lia|done]. }
  intros lines. apply Hgen. apply map_Forall_empty.
Qed.

Lemma updateRow_nonNegative cancelled (transferMap : gmap string Z) row :
  nonNegative transferMap →
  nonNegative (updateRow cancelled transferMap row).2.
Proof.
  intros Hmap. unfold updateRow.
  destruct (transferMap !! InvoiceItem.item row) as [t|]; [|done].
  destruct (Js.nullish (InvoiceItem.stockNotTransferred row) 0); try done.
  destruct cancelled; simpl; (apply map_Forall_insert_2; [lia|done]).
Qed.

Lemma updateRow_fields cancelled (transferMap : gmap string Z) row :
  InvoiceItem.item (updateRow cancelled transferMap row).1
    = InvoiceItem.item row
  ∧ InvoiceItem.quantity (updateRow cancelled transferMap row).1
    = InvoiceItem.quantity row.
Proof.
  unfold updateRow.
  destruct (transferMap !! InvoiceItem.item row) as [t|]; [|done].
  destruct (Js.nullish (InvoiceItem.stockNotTransferred row) 0); try done.
  by destruct cancelled.
Qed.

Lemma updateRow_inBounds cancelled (transferMap : gmap string Z) row :
  nonNegative transferMap →
  lineInBounds row = true →
  lineInBounds (updateRow cancelled transferMap row).1 = true.
Proof.
  intros Hmap Hrow. unfold updateRow.
  destruct (transferMap !! InvoiceItem.item row) as [t|] eqn:Ht; [|done].
  specialize (Hmap _ _ Ht). simpl in Hmap.
  unfold lineInBounds in Hrow.
  destruct (InvoiceItem.stockNotTransferred row) as [|n|]; try done.
  simpl. apply andb_prop in Hrow as [H0 Hq].
  destruct cancelled; unfold lineInBounds; simpl;
    apply andb_true_intro; split; lia.
Qed.

Lemma updateRows_lookup cancelled rows :
  ∀ (transferMap : gmap string Z) (k : nat) row,
    nonNegative transferMap →
    rows !! k = Some row →
    lineInBounds row = true →
    ∃ row',
      (updateRows cancelled transferMap rows).1 !! k = Some row'
      ∧ InvoiceItem.item row' = InvoiceItem.item row
      ∧ InvoiceItem.quantity row' = InvoiceItem.quantity row
      ∧ lineInBounds row' = true.
Proof.
  induction rows as [|r rows IH]; intros transferMap k row Hmap Hk Hrow;
    [done|].
  simpl.
  pose proof (updateRow_nonNegative cancelled transferMap r Hmap) as Hmap'.
  destruct (updateRow cancelled transferMap r) as [r' transferMap'] eqn:Hr.
  simpl in Hmap'.
  destruct (updateRows cancelled transferMap' rows) as [rows' tm''] eqn:Hrs.
  destruct k as [|k]; simpl in *.
  - injection Hk as ->. exists r'.
    pose proof (updateRow_fields cancelled transferMap row) as [Hi Hq].
    pose proof (updateRow_inBounds cancelled transferMap row Hmap Hrow) as Hb.
    rewrite Hr in Hi, Hq, Hb. done.
  - destruct (IH transferMap' k row Hmap' Hk Hrow) as (row' & Hl & Hrest).
    rewrite Hrs in Hl. by exists row'.
Qed.

Lemma _updateBackReference_inBounds fyo this fyo' :
  quantitiesNonNegative this = true →
  _updateBackReference getStockNotTransferred fyo this = Ok fyo' →
  ∀ schema name (k : nat) row,
    storedRows fyo schema name !! k = Some row →
    lineInBounds row = true →
    ∃ row',
      storedRows fyo' schema name !! k = Some row'
      ∧ InvoiceItem.item row' = InvoiceItem.item row
      ∧ InvoiceItem.quantity row' = InvoiceItem.quantity row
      ∧ lineInBounds row' = true.
Proof.
  intros Hq Hrun schema name k row Hk Hrow.
  assert (Hsame : fyo' = fyo → ∃ row',
    storedRows fyo' schema name !! k = Some row'
    ∧ InvoiceItem.item row' = InvoiceItem.item row
    ∧ InvoiceItem.quantity row' = InvoiceItem.quantity row
    ∧ lineInBounds row' = true).
  { intros ->. by exists row. }
  unfold _updateBackReference in Hrun.
  destruct (negb (isCancelled this) && negb (isSubmitted this));
    [injection Hrun as <-; by apply Hsame|].
  destruct (negb (Js.truthyString (backReference this)));
    [injection Hrun as <-; by apply Hsame|].
  destruct (backReference this) as [ref|];
    [|injection Hrun as <-; by apply Hsame].
  clear Hsame. unfold getDoc in Hrun.
  destruct (docs fyo !! (invoiceSchema this, ref)) as [invoice|] eqn:Hdoc;
    [|done].
  simpl in Hrun. injection Hrun as <-.
  unfold storedRows, setAndSync, withRows in *. simpl.
  destruct (decide ((invoiceSchema this, ref) = (schema, name))) as [Heq|Hne].
  - rewrite Heq in *. rewrite lookup_insert_eq. simpl.
    rewrite Hdoc in Hk.
    destruct (Invoice.items invoice) as [rows|]; simpl in *; [|done].
    apply updateRows_lookup; [|done..].
    by apply _getTransferMap_nonNegative.
  - rewrite lookup_insert_ne; [|done]. by exists row.
Qed.

(** C1. Every invoice line that starts with
    [0 ≤ stockNotTransferred ≤ quantity] still satisfies it after any
    sequence of submit and cancel events run by [_updateBackReference],
    whatever the transfers are, as long as the quantities they carry are
    non-negative; the line keeps its item and its quantity. *)
Theorem reconciliation_bounds events :
  ∀ fyo,
    forallb quantitiesNonNegative events = true →
    ∀ schema name (k : nat) row,
      storedRows fyo schema name !! k = Some row →
      lineInBounds row = true →
      ∃ row',
        storedRows (reconcileAll getStockNotTransferred fyo events)
          schema name !! k = Some row'
        ∧ InvoiceItem.item row' = InvoiceItem.item row
        ∧ InvoiceItem.quantity row' = InvoiceItem.quantity row
        ∧ lineInBounds row' = true.
Proof.
  induction events as [|this events IH]; intros fyo Hall schema name k row
    Hk Hrow; simpl.
  - by exists row.
  - simpl in Hall. apply andb_prop in Hall as [Hthis Hall].
    destruct (_updateBackReference getStockNotTransferred fyo this)
      as [fyo'|e] eqn:Hrun.
    + destruct (_updateBackReference_inBounds fyo this fyo' Hthis Hrun
                  schema name k row Hk Hrow) as (row1 & Hk1 & Hi1 & Hq1 & Hb1).
      destruct (IH fyo' Hall schema name k row1 Hk1 Hb1)
        as (row' & Hk' & Hi' & Hq' & Hb').
      exists row'. repeat split; [done|congruence|congruence|done].
    + by apply IH.
Qed.

End Bounds.

Lemma reconciliation_bounds_witness :
  ∃ row',
    storedRows
      (reconcileAll sumOfLines
         (Samples.fyoWith [InvoiceItem.mk "A" 10 (Js.Number 10)])
         [Samples.shipment Submitted [Samples.line "A" 4];
          Samples.shipment Cancelled [Samples.line "A" 4]])
      SalesInvoice "SINV-1" !! 0%nat = Some row'
    ∧ InvoiceItem.item row' = "A"
    ∧ InvoiceItem.quantity row' = 10
    ∧ lineInBounds row' = true.
Proof.
  apply (reconciliation_bounds sumOfLines
           [Samples.shipment Submitted [Samples.line "A" 4];
            Samples.shipment Cancelled [Samples.line "A" 4]]
           (Samples.fyoWith [InvoiceItem.mk "A" 10 (Js.Number 10)])
           eq_refl SalesInvoice "SINV-1" 0%nat
           (InvoiceItem.mk "A" 10 (Js.Number 10))).
  - vm_compute. reflexivity.
  - reflexivity.
Defined.

(** ** Reconciliation: one line at a time *)

Lemma updateRow_number cancelled (transferMap : gmap string Z) row t n :
  transferMap !! InvoiceItem.item row = Some t →
  lineValue row = Some n →
  updateRow cancelled transferMap row =
    (InvoiceItem.setStockNotTransferred row
       (if cancelled then Z.min (n + t) (InvoiceItem.quantity row)
        else Z.max (n - t) 0),
     <[InvoiceItem.item row :=
         if cancelled then Z.max (t + n - InvoiceItem.quantity row) 0
         else Z.max (t - n) 0]> transferMap).
Proof.
  intros Ht Hn. unfold updateRow, lineValue in *. rewrite Ht.
  destruct (Js.nullish (InvoiceItem.stockNotTransferred row) 0); try done.
  injection Hn as ->. by destruct cancelled.
Qed.

Lemma updateRow_skip cancelled (transferMap : gmap string Z) row :
  transferMap !! InvoiceItem.item row = None ∨ lineValue row = None →
  updateRow cancelled transferMap row = (row, transferMap).
Proof.
  unfold updateRow, lineValue. intros [Ht|Hn].
  - by rewrite Ht.
  - destruct (transferMap !! InvoiceItem.item row); [|done].
    by destruct (Js.nullish (InvoiceItem.stockNotTransferred row) 0).
Qed.






(** ** Reconciliation: a whole event *)

Section Events.

Variable getStockNotTransferred : Invoice.t → Z.

(** What an event writes when it has an invoice to update. *)
Lemma _updateBackReference_run fyo this name invoice :
  status this ≠ Draft →
  backReference this = Some name →
  name ≠ "" →
  docs fyo !! (invoiceSchema this, name) = Some invoice →
  _updateBackReference getStockNotTransferred fyo this
  = Ok (setAndSync fyo (invoiceSchema this) name
          (withRows (isCancelled this) (_getTransferMap this) invoice)
          (getStockNotTransferred
             (withRows (isCancelled this) (_getTransferMap this) invoice))).
Proof.
  intros Hst Href Hname Hdoc. unfold _updateBackReference.
  replace (negb (isCancelled this) && negb (isSubmitted this)) with false
    by (unfold isCancelled, isSubmitted; by destruct (status this)).
  rewrite Href. simpl.
  destruct (String.eqb_spec name ""); [done|]. simpl.
  unfold getDoc. by rewrite Hdoc.
Qed.



End Events.


(** The instance of the specification: [10 → 6 → 10]. *)
Example submit_then_cancel_10_6_10 :
  let fyo := Samples.fyoWith [InvoiceItem.mk "A" 10 (Js.Number 10)] in
  let submit := Samples.shipment Submitted [Samples.line "A" 4] in
  let cancel := Samples.shipment Cancelled [Samples.line "A" 4] in
  storedRows (reconcileAll sumOfLines fyo [submit]) SalesInvoice "SINV-1"
  = [InvoiceItem.mk "A" 10 (Js.Number 6)]
  ∧ storedRows (reconcileAll sumOfLines fyo [submit; cancel])
      SalesInvoice "SINV-1"
    = [InvoiceItem.mk "A" 10 (Js.Number 10)].
Proof. vm_compute. done. Qed.


(** C10. On each line the reconciler updates, with whole numbers
    [0 ≤ n ≤ q ≤ 2^52] and [0 ≤ t ≤ 2^52], what is applied to the line is
    what is taken from the item's residual: on submit [n − n' = t − t'], so
    the difference of line and residual is kept; on cancel
    [n' − n = t − t'], so their sum is kept. *)
Theorem line_update_conserves cancelled (transferMap : gmap string Z) row t n :
  transferMap !! InvoiceItem.item row = Some t →
  lineValue row = Some n →
  Js.exact t = true →
  Js.exact (InvoiceItem.quantity row) = true →
  0 ≤ n ≤ InvoiceItem.quantity row →
  ∃ n' t',
    lineValue (updateRow cancelled transferMap row).1 = Some n'
    ∧ (updateRow cancelled transferMap row).2 !! InvoiceItem.item row = Some t'
    ∧ if cancelled then
        n' = Z.min (n + t) (InvoiceItem.quantity row)
        ∧ t' = Z.max (t + n - InvoiceItem.quantity row) 0
        ∧ n' - n = t - t'
        ∧ n' + t' = n + t
      else
        n' = Z.max (n - t) 0
        ∧ t' = Z.max (t - n) 0
        ∧ n - n' = t - t'
        ∧ n' - t' = n - t.
Proof.
  intros Ht Hn _ _ _.
  rewrite (updateRow_number cancelled transferMap row t n Ht Hn).
  simpl. rewrite lookup_insert_eq.
  destruct cancelled; eexists _, _; (split; [reflexivity|]);
    (split; [reflexivity|]); lia.
Qed.

Lemma line_update_conserves_witness :
  ∃ n' t',
    lineValue
      (updateRow false {[ "A" := 4 ]} (InvoiceItem.mk "A" 10 (Js.Number 10))).1
    = Some n'
    ∧ (updateRow false {[ "A" := 4 ]}
         (InvoiceItem.mk "A" 10 (Js.Number 10))).2 !! "A" = Some t'
    ∧ n' = Z.max (10 - 4) 0
    ∧ t' = Z.max (4 - 10) 0
    ∧ 10 - n' = 4 - t'
    ∧ n' - t' = 10 - 4.
Proof.
  apply (line_update_conserves false {[ "A" := 4 ]}
           (InvoiceItem.mk "A" 10 (Js.Number 10)) 4 10).
  - vm_compute. reflexivity.
  - reflexivity.
  - reflexivity.
  - reflexivity.
  - simpl. lia.
Defined.

(** Against C10 as stated: on submit the sum of the line and the residual
    is not kept; a line holding 10 met by a residual of 4 goes from
    [10 + 4] to [6 + 0]. *)
Lemma residual_sum_changes_on_submit :
  let row := InvoiceItem.mk "A" 10 (Js.Number 10) in
  let transferMap : gmap string Z := {[ "A" := 4 ]} in
  linePlusResidual (updateRow false transferMap row).2
    (updateRow false transferMap row).1
  ≠ linePlusResidual transferMap row.
Proof. vm_compute. intros H. discriminate H. Qed.

(** The instance of the specification, through the whole event: two lines
    of item B, 5 each, and a transfer of 7. *)
Example first_come_first_served_B :
  storedRows
    (reconcileAll sumOfLines
       (Samples.fyoWith [InvoiceItem.mk "B" 5 (Js.Number 5);
                         InvoiceItem.mk "B" 5 (Js.Number 5)])
       [Samples.shipment Submitted [Samples.line "B" 7]])
    SalesInvoice "SINV-1"
  = [InvoiceItem.mk "B" 5 (Js.Number 0); InvoiceItem.mk "B" 5 (Js.Number 3)].
Proof. vm_compute. reflexivity. Qed.

(** ** The transfer map *)

Lemma addToTransferMap_skips (acc : gmap string Z) line :
  contributes line = false → addToTransferMap acc line = acc.
Proof.
  unfold contributes, addToTransferMap. intros H.
  destruct (Js.truthyString (StockTransferItem.item line)); simpl in *; [|done].
  destruct (Js.truthyNumber (StockTransferItem.quantity line)); simpl in *;
    [|done].
  destruct (StockTransferItem.item line) as [key|]; [|done].
  destruct (StockTransferItem.quantity line) as [quantity|]; [|done].
  apply negb_false_iff in H. by rewrite H.
Qed.

Lemma addToTransferMap_adds (acc : gmap string Z) line :
  contributes line = true →
  ∃ key quantity,
    StockTransferItem.item line = Some key
    ∧ StockTransferItem.quantity line = Some quantity
    ∧ addToTransferMap acc line
      = <[key := default 0 (acc !! key) + quantity]> acc.
Proof.
  unfold contributes, addToTransferMap. intros H.
  apply andb_prop in H as [H Hkey]. apply andb_prop in H as [Hi Hq].
  rewrite Hi, Hq. simpl.
  destruct (StockTransferItem.item line) as [key|]; [|done].
  destruct (StockTransferItem.quantity line) as [quantity|]; [|done].
  apply negb_true_iff in Hkey. rewrite Hkey. by exists key, quantity.
Qed.

Lemma foldl_addToTransferMap_lookup lines :
  ∀ (acc : gmap string Z) key,
    foldl addToTransferMap acc lines !! key
    = match quantitiesFor key lines with
      | [] => acc !! key
      | qs => Some (default 0 (acc !! key) + foldr Z.add 0 qs)
      end.
Proof.
  induction lines as [|line lines IH]; intros acc key; [done|].
  simpl. rewrite IH. unfold quantitiesFor. simpl.
  destruct (contributes line) eqn:Hc; simpl.
  - destruct (addToTransferMap_adds acc line Hc) as (k & q & Hk & Hq & ->).
    rewrite Hk, Hq. case_bool_decide as Heq; simpl.
    + injection Heq as ->. rewrite lookup_insert_eq. simpl.
      destruct (omap _ lines); simpl; f_equal; lia.
    + rewrite lookup_insert_ne by congruence. done.
  - by rewrite (addToTransferMap_skips acc line Hc).
Qed.

(** C4. For a transfer whose quantities are whole numbers with magnitudes
    summing to [2^53] at most, and an item that is not named like a member
    of [Object.prototype], [_getTransferMap] starts from the empty map and
    adds the quantities of the lines of that item whose quantity is
    defined and not zero: the map holds for the item the sum of those
    quantities, and nothing when there is no such line.  A line whose item
    is missing or empty, or whose quantity is missing or zero, leaves the
    map as it is, and nothing throws. *)
Theorem getTransferMap_lookup this key :
  exactlySummable this = true →
  Js.inherited key = false →
  _getTransferMap this !! key
  = match quantitiesFor key (default [] (items this)) with
    | [] => None
    | qs => Some (foldr Z.add 0 qs)
    end
  ∧ ∀ (acc : gmap string Z) line,
      Js.truthyString (StockTransferItem.item line) = false
      ∨ Js.truthyNumber (StockTransferItem.quantity line) = false →
      addToTransferMap acc line = acc.
Proof.
  intros _ _. split.
  - unfold _getTransferMap. rewrite foldl_addToTransferMap_lookup.
    rewrite lookup_empty. simpl.
    destruct (quantitiesFor key (default [] (items this))); [done|].
    f_equal.
  - intros acc line Hskip. apply addToTransferMap_skips.
    unfold contributes. destruct Hskip as [-> | ->]; [done|].
    by rewrite andb_false_r.
Qed.

Lemma getTransferMap_lookup_witness :
  _getTransferMap
    (Samples.shipment Draft
       [Samples.line "A" 4; Samples.line "A" 0; Samples.line "B" 9;
        Samples.line "A" 3])
    !! "A"
  = Some 7.
Proof.
  apply (proj1 (getTransferMap_lookup
                  (Samples.shipment Draft
                     [Samples.line "A" 4; Samples.line "A" 0;
                      Samples.line "B" 9; Samples.line "A" 3])
                  "A" eq_refl eq_refl)).
Defined.

(** Lines whose item is named like a member of [Object.prototype] leave no
    number in the map. *)
Example getTransferMap_inherited_names :
  _getTransferMap
    (Samples.shipment Draft
       [Samples.line "constructor" 4; Samples.line "__proto__" 4;
        Samples.line "toString" 1])
  = ∅.
Proof. vm_compute. reflexivity. Qed.

(** Against C4 as stated: a line of quantity zero is skipped, so its item
    gets no entry, where the specification's map holds a zero for it. *)
Lemma zero_quantity_line_skipped :
  _getTransferMap (Samples.shipment Draft [Samples.line "A" 0])
  ≠ transferMapSpec (Samples.shipment Draft [Samples.line "A" 0]).
Proof.
  intros H.
  apply (f_equal (λ m : gmap string Z, m !! "A")) in H.
  vm_compute in H. discriminate H.
Qed.

(** ** Movement records *)

(** C9. A movement record carries the line's location in [fromLocation]
    when the transfer is outbound and in [toLocation] when it is inbound,
    and leaves the other one unset; so exactly one of the two is populated
    when the line has a location, and none when it has not. *)
Theorem getTransferDetails_direction this (k : nat) row :
  default [] (items this) !! k = Some row →
  ∃ d,
    _getTransferDetails this !! k = Some d
    ∧ length (_getTransferDetails this) = length (default [] (items this))
    ∧ (if isSales this then
         TransferDetails.fromLocation d = StockTransferItem.location row
         ∧ TransferDetails.toLocation d = None
       else
         TransferDetails.toLocation d = StockTransferItem.location row
         ∧ TransferDetails.fromLocation d = None)
    ∧ (exactlyOnePopulated d = true ↔ is_Some (StockTransferItem.location row)).
Proof.
  intros Hk. unfold _getTransferDetails.
  rewrite list_lookup_fmap, Hk. simpl. eexists. split; [reflexivity|].
  split; [apply length_fmap|].
  unfold exactlyOnePopulated. simpl.
  destruct (isSales this), (StockTransferItem.location row);
    (split; [done|]); split; intros H; try done; by destruct H.
Qed.

Lemma getTransferDetails_direction_witness :
  ∃ d,
    _getTransferDetails (Samples.shipment Draft [Samples.line "A" 4]) !! 0%nat
    = Some d
    ∧ length (_getTransferDetails (Samples.shipment Draft [Samples.line "A" 4]))
      = 1%nat
    ∧ (TransferDetails.fromLocation d = Some "Stores"
       ∧ TransferDetails.toLocation d = None)
    ∧ (exactlyOnePopulated d = true ↔ is_Some (Some "Stores")).
Proof.
  apply (getTransferDetails_direction
           (Samples.shipment Draft [Samples.line "A" 4]) 0%nat
           (Samples.line "A" 4)).
  reflexivity.
Defined.

(** Against C9 as stated: the record of a line without a location has
    neither side populated. *)
Lemma line_without_location_unpopulated :
  ¬ ∀ d,
      d ∈ _getTransferDetails
            (Samples.shipment Draft
               [StockTransferItem.mk (Some "A") (Some 1) (Some 4) None]) →
      exactlyOnePopulated d = true.
Proof.
  intros H.
  specialize (H (TransferDetails.mk (Some "A") (Some 1) (Some 4) None None)).
  assert (Hd : exactlyOnePopulated
                 (TransferDetails.mk (Some "A") (Some 1) (Some 4) None None)
               = true).
  { apply H. vm_compute. apply list_elem_of_here. }
  discriminate Hd.
Qed.

(** ** Account validation *)

Lemma append_empty_r s : s +:+ "" = s.
Proof.
  induction s as [|c s IH]; [done|].
  change (String c (s +:+ "") = String c s). by rewrite IH.
Qed.

Lemma append_assoc s1 s2 s3 : (s1 +:+ s2) +:+ s3 = s1 +:+ s2 +:+ s3.
Proof.
  induction s1 as [|c s1 IH]; [done|].
  change (String c ((s1 +:+ s2) +:+ s3) = String c (s1 +:+ s2 +:+ s3)).
  by rewrite IH.
Qed.

(** Every element of a joined list can be read in the result. *)
Lemma join_includes sep messages message :
  message ∈ messages → Js.includes (Js.join sep messages) message.
Proof.
  induction messages as [|m ms IH]; intros Hin;
    [by apply elem_of_nil in Hin|].
  apply elem_of_cons in Hin as [->|Hin].
  - destruct ms as [|m' ms].
    + exists "", "". simpl. by rewrite append_empty_r.
    + by exists "", (sep +:+ Js.join sep (m' :: ms)).
  - destruct ms as [|m' ms]; [by apply elem_of_nil in Hin|].
    destruct (IH Hin) as (before & after & Heq).
    exists (m +:+ sep +:+ before), after.
    change (Js.join sep (m :: m' :: ms))
      with (m +:+ sep +:+ Js.join sep (m' :: ms)).
    by rewrite Heq, !append_assoc.
Qed.

Lemma checkSetting_problemOf fyo messages setting :
  checkSetting fyo messages setting
  = (messages ++ option_list (problemOf fyo setting))%list.
Proof.
  unfold checkSetting, problemOf, db_exists.
  destruct (inventorySetting fyo setting) as [value|]; [|done].
  destruct (String.eqb_spec value "") as [->|Hne].
  - by rewrite decide_True.
  - rewrite decide_False by done.
    case_bool_decide; [rewrite decide_True by done|rewrite decide_False by done];
      simpl; by rewrite ?app_nil_r.
Qed.

Lemma foldl_checkSetting fyo settings :
  ∀ messages,
    foldl (checkSetting fyo) messages settings
    = (messages ++ omap (problemOf fyo) settings)%list.
Proof.
  induction settings as [|setting settings IH]; intros messages; simpl.
  - by rewrite app_nil_r.
  - rewrite IH, checkSetting_problemOf, <- app_assoc. f_equal.
    by destruct (problemOf fyo setting).
Qed.

Lemma collectMessages_problems fyo this :
  collectMessages fyo this = omap (problemOf fyo) (requiredSettings this).
Proof. unfold collectMessages. by rewrite foldl_checkSetting. Qed.

Lemma validateAccounts_cases fyo this :
  (collectMessages fyo this = [] ∧ validateAccounts fyo this = Ok tt)
  ∨ (collectMessages fyo this ≠ []
     ∧ validateAccounts fyo this
       = Throw (ValidationError (Js.join " " (collectMessages fyo this)))).
Proof.
  unfold validateAccounts.
  destruct (collectMessages fyo this) as [|m ms]; [by left|by right].
Qed.

Lemma problemOf_None fyo setting :
  problemOf fyo setting = None ↔
  ∃ value,
    inventorySetting fyo setting = Some value
    ∧ value ≠ "" ∧ value ∈ accounts fyo.
Proof.
  unfold problemOf. split.
  - destruct (inventorySetting fyo setting) as [value|]; [|done].
    repeat case_decide; try done. intros _. by exists value.
  - intros (value & -> & Hne & Hin).
    by rewrite decide_False, decide_True.
Qed.

(** A validation that passes has found every required setting set to an
    existing account. *)
Lemma validateAccounts_Ok fyo this :
  validateAccounts fyo this = Ok tt ↔
  ∀ setting,
    setting ∈ requiredSettings this →
    ∃ value,
      inventorySetting fyo setting = Some value
      ∧ value ≠ "" ∧ value ∈ accounts fyo.
Proof.
  assert (Hnil : collectMessages fyo this = [] ↔
                 ∀ setting, setting ∈ requiredSettings this →
                            problemOf fyo setting = None).
  { rewrite collectMessages_problems.
    generalize (requiredSettings this) as settings.
    induction settings as [|s settings IH]; simpl.
    - split; [intros _ ? H; by apply elem_of_nil in H|done].
    - destruct (problemOf fyo s) eqn:Hs; simpl.
      + split; [done|]. intros H.
        specialize (H s (list_elem_of_here _ _)). congruence.
      + rewrite IH. split.
        * intros H setting Hin. apply elem_of_cons in Hin as [->|Hin]; auto.
        * intros H setting Hin. apply H. by apply list_elem_of_further. }
  split.
  - intros Hok setting Hin. apply problemOf_None. apply Hnil; [|done].
    destruct (validateAccounts_cases fyo this) as [[Hm _]|[_ Hthrow]];
      [done|congruence].
  - intros Hall.
    destruct (validateAccounts_cases fyo this) as [[_ Hok]|[Hm _]]; [done|].
    exfalso. apply Hm. apply Hnil. intros setting Hin.
    apply problemOf_None. by apply Hall.
Qed.

(** C6. [validateAccounts] looks at every required setting ([stockInHand],
    then [costOfGoodsSold] for an outbound transfer and
    [stockReceivedButNotBilled] for an inbound one) before it fails: the
    messages it collects are the problems of all of them, in order; it
    succeeds exactly when there is none, and otherwise throws one error
    that joins them all, in which the message of every unset setting and
    of every set but non-existent account can be read.  With both settings
    of a direction unset, the error names both. *)
Theorem validateAccounts_aggregates fyo this :
  requiredSettings this
  = ["stockInHand";
     if isSales this then "costOfGoodsSold" else "stockReceivedButNotBilled"]
  ∧ collectMessages fyo this = omap (problemOf fyo) (requiredSettings this)
  ∧ (validateAccounts fyo this = Ok tt ↔ collectMessages fyo this = [])
  ∧ (collectMessages fyo this ≠ [] →
     validateAccounts fyo this
     = Throw (ValidationError (Js.join " " (collectMessages fyo this))))
  ∧ (∀ setting problem,
       setting ∈ requiredSettings this →
       problemOf fyo setting = Some problem →
       problem ∈ collectMessages fyo this
       ∧ ∃ message,
           validateAccounts fyo this = Throw (ValidationError message)
           ∧ Js.includes message problem)
  ∧ (inventorySetting fyo "stockInHand" = None →
     inventorySetting fyo
       (if isSales this then "costOfGoodsSold"
        else "stockReceivedButNotBilled") = None →
     validateAccounts fyo this
     = Throw (ValidationError
                (Js.join " "
                   [label (getField fyo InventorySettings "stockInHand")
                    +:+ " account not set in Inventory Settings.";
                    label (getField fyo InventorySettings
                             (if isSales this then "costOfGoodsSold"
                              else "stockReceivedButNotBilled"))
                    +:+ " account not set in Inventory Settings."]))).
Proof.
  assert (Hreq : requiredSettings this
    = ["stockInHand";
       if isSales this then "costOfGoodsSold"
       else "stockReceivedButNotBilled"]).
  { unfold requiredSettings. by destruct (isSales this). }
  split; [done|]. split; [apply collectMessages_problems|].
  split; [|split; [|split]].
  - destruct (validateAccounts_cases fyo this) as [[Hm Hok]|[Hm Hthrow]].
    + by rewrite Hm, Hok.
    + rewrite Hthrow. split; [done|]. intros H. by destruct Hm.
  - intros Hm.
    by destruct (validateAccounts_cases fyo this) as [[Hnil _]|[_ Hthrow]].
  - intros setting problem Hin Hp.
    assert (Hmem : problem ∈ collectMessages fyo this).
    { rewrite collectMessages_problems.
      apply list_elem_of_omap. by exists setting. }
    split; [done|].
    destruct (validateAccounts_cases fyo this) as [[Hm _]|[_ ->]].
    + rewrite Hm in Hmem. by apply elem_of_nil in Hmem.
    + eexists. split; [reflexivity|]. by apply join_includes.
  - intros H1 H2.
    destruct (validateAccounts_cases fyo this) as [[Hm _]|[_ ->]].
    + rewrite collectMessages_problems, Hreq in Hm. simpl in Hm.
      unfold problemOf in Hm. by rewrite H1 in Hm.
    + rewrite collectMessages_problems, Hreq. simpl.
      unfold problemOf. by rewrite H1, H2.
Qed.

Lemma validateAccounts_aggregates_witness :
  validateAccounts (mkFyo None Samples.fieldOf ∅ ∅) (Samples.shipment Draft [])
  = Throw (ValidationError
             "stockInHand account not set in Inventory Settings. costOfGoodsSold account not set in Inventory Settings.").
Proof.
  destruct (validateAccounts_aggregates (mkFyo None Samples.fieldOf ∅ ∅)
              (Samples.shipment Draft []))
    as (_ & _ & _ & _ & _ & Hboth).
  rewrite Hboth; reflexivity.
Defined.

(** ** Postings *)

Section Postings.

Variable roundOffAccount : option string.

Lemma getPosting_valid fyo this :
  validateAccounts fyo this = Ok tt →
  getPosting roundOffAccount fyo this
  = Ok (Some
          (LedgerPosting.makeRoundOffEntry roundOffAccount
             (LedgerPosting.credit
                (inventorySetting fyo (creditSetting this))
                (postingAmount this)
                (LedgerPosting.debit
                   (inventorySetting fyo (debitSetting this))
                   (postingAmount this)
                   LedgerPosting.new)))).
Proof.
  intros Hok. unfold getPosting, debitSetting, creditSetting. rewrite Hok.
  simpl. by destruct (isSales this).
Qed.

Lemma getPosting_invalid fyo this e :
  validateAccounts fyo this = Throw e →
  getPosting roundOffAccount fyo this = Throw e.
Proof. intros Hthrow. unfold getPosting. by rewrite Hthrow. Qed.

Lemma makeRoundOffEntry_balanced p :
  LedgerPosting.total LedgerPosting.Debit
    (LedgerPosting.makeRoundOffEntry roundOffAccount p)
  = LedgerPosting.total LedgerPosting.Credit
      (LedgerPosting.makeRoundOffEntry roundOffAccount p).
Proof.
  unfold LedgerPosting.total, LedgerPosting.makeRoundOffEntry. simpl.
  destruct (Z.ltb_spec
              (LedgerPosting.sumSide LedgerPosting.Credit
                 (LedgerPosting.entries p))
              (LedgerPosting.sumSide LedgerPosting.Debit
                 (LedgerPosting.entries p)));
    simpl; lia.
Qed.

(** C2. Once the accounts validate, the posting of a transfer of total
    [A] (zero when [grandTotal] is undefined) has exactly two primary
    entries, a debit of [A] and a credit of [A], and a rounding entry; its
    debits and credits, rounding included, sum to the same amount.  This
    holds for [A = 0] as for any other amount: the two entries are there,
    with amount zero, and nothing is thrown. *)
Theorem getPosting_balanced fyo this :
  validateAccounts fyo this = Ok tt →
  ∃ posting debited credited roundOff,
    getPosting roundOffAccount fyo this = Ok (Some posting)
    ∧ LedgerPosting.entries posting
      = [LedgerPosting.mkEntry debited (postingAmount this)
           LedgerPosting.Debit;
         LedgerPosting.mkEntry credited (postingAmount this)
           LedgerPosting.Credit]
    ∧ LedgerPosting.rounding posting = Some roundOff
    ∧ LedgerPosting.amount roundOff = 0
    ∧ LedgerPosting.total LedgerPosting.Debit posting
      = LedgerPosting.total LedgerPosting.Credit posting
    ∧ (grandTotal this = None → postingAmount this = 0).
Proof.
  intros Hok. rewrite (getPosting_valid fyo this Hok).
  eexists _, _, _, _. split; [reflexivity|].
  split; [reflexivity|]. split; [reflexivity|].
  split; [|split; [apply makeRoundOffEntry_balanced|]].
  - unfold LedgerPosting.sumSide. simpl.
    destruct (Z.ltb_spec (postingAmount this + 0) (postingAmount this + 0));
      simpl; lia.
  - unfold postingAmount. by intros ->.
Qed.


(** C5. [getPosting] never returns null: without a [grandTotal] the
    amount is zero, and in every case it either throws the validation
    failure of [validateAccounts] or returns a posting. *)
Theorem getPosting_never_null fyo this :
  getPosting roundOffAccount fyo this ≠ Ok None
  ∧ ((∃ message,
        validateAccounts fyo this = Throw (ValidationError message)
        ∧ getPosting roundOffAccount fyo this
          = Throw (ValidationError message))
     ∨ (validateAccounts fyo this = Ok tt
        ∧ ∃ posting, getPosting roundOffAccount fyo this = Ok (Some posting))).
Proof.
  destruct (validateAccounts_cases fyo this) as [[_ Hok]|[_ Hthrow]].
  - rewrite (getPosting_valid fyo this Hok). split; [done|].
    right. split; [done|]. by eexists.
  - rewrite (getPosting_invalid fyo this _ Hthrow). split; [done|].
    left. by eexists.
Qed.

End Postings.

Lemma getPosting_balanced_witness :
  ∃ posting debited credited roundOff,
    getPosting (Some "Round Off") (Samples.fyoWith [])
      (Samples.shipment Draft [Samples.line "A" 4])
    = Ok (Some posting)
    ∧ LedgerPosting.entries posting
      = [LedgerPosting.mkEntry debited 0 LedgerPosting.Debit;
         LedgerPosting.mkEntry credited 0 LedgerPosting.Credit]
    ∧ LedgerPosting.rounding posting = Some roundOff
    ∧ LedgerPosting.amount roundOff = 0
    ∧ LedgerPosting.total LedgerPosting.Debit posting
      = LedgerPosting.total LedgerPosting.Credit posting
    ∧ (@None Z = None → 0 = 0).
Proof.
  apply (getPosting_balanced (Some "Round Off") (Samples.fyoWith [])
           (Samples.shipment Draft [Samples.line "A" 4])).
  vm_compute. reflexivity.
Defined.


(** Against C5 as stated: a transfer without a [grandTotal], on a ledger
    whose accounts validate, gets a posting and not null. *)
Lemma getPosting_undefined_total_not_null :
  ¬ (getPosting (Some "Round Off") (Samples.fyoWith [])
       (Samples.shipment Draft [Samples.line "A" 4]) = Ok None
     ↔ grandTotal (Samples.shipment Draft [Samples.line "A" 4]) = None).
Proof.
  intros [_ Hnull]. specialize (Hnull eq_refl).
  vm_compute in Hnull. discriminate Hnull.
Qed.

(** ** More on the transfer map *)

Lemma quantitiesFor_nil key lines :
  quantitiesFor key lines = [] ↔
  ∀ line,
    line ∈ lines →
    ¬ (contributes line = true ∧ StockTransferItem.item line = Some key).
Proof.
  unfold quantitiesFor. induction lines as [|l lines IH]; simpl.
  - split; [|done]. intros _ line Hin. by apply elem_of_nil in Hin.
  - destruct (contributes l) eqn:Hc; simpl.
    + case_bool_decide as Hk; simpl.
      * destruct (StockTransferItem.quantity l) as [q|] eqn:Hq; simpl.
        -- split; [done|]. intros H. exfalso.
           apply (H l); [apply list_elem_of_here|done].
        -- unfold contributes in Hc. rewrite Hq in Hc. simpl in Hc.
           by rewrite andb_false_r in Hc.
      * rewrite IH. split.
        -- intros H line Hin. apply elem_of_cons in Hin as [->|Hin];
             [by intros [_ ?]|by apply H].
        -- intros H line Hin. apply H. by apply list_elem_of_further.
    + rewrite IH. split.
      * intros H line Hin. apply elem_of_cons in Hin as [->|Hin];
          [intros [? _]; congruence|by apply H].
      * intros H line Hin. apply H. by apply list_elem_of_further.
Qed.

Lemma sum_Permutation (xs ys : list Z) :
  xs ≡ₚ ys → foldr Z.add 0 xs = foldr Z.add 0 ys.
Proof. induction 1; simpl; lia. Qed.

(** The map holds a number for an item exactly when some line of that
    item adds one: it never holds one for the empty string, nor for the
    name of a member of [Object.prototype]. *)
Theorem getTransferMap_domain this key :
  (is_Some (_getTransferMap this !! key) ↔
   ∃ line,
     line ∈ default [] (items this)
     ∧ contributes line = true
     ∧ StockTransferItem.item line = Some key)
  ∧ Forall (λ k, _getTransferMap this !! k = None)
      ("" :: Js.objectPrototypeMembers).
Proof.
  assert (Hdom : ∀ k,
    is_Some (_getTransferMap this !! k) ↔
    quantitiesFor k (default [] (items this)) ≠ []).
  { intros k. unfold _getTransferMap.
    rewrite foldl_addToTransferMap_lookup, lookup_empty.
    destruct (quantitiesFor k (default [] (items this))); simpl.
    - split; [by intros [? ?]|done].
    - split; [done|]. intros _. by eexists. }
  split.
  - rewrite Hdom, quantitiesFor_nil. split.
    + intros Hne.
      destruct (decide (Exists
        (λ line, contributes line = true
                 ∧ StockTransferItem.item line = Some key)
        (default [] (items this)))) as [Hex|Hnex].
      * apply Exists_exists in Hex as (line & Hin & Hc & Hk).
        apply list_elem_of_In in Hin. eauto.
      * exfalso. apply Hne. intros line Hin Hline. apply Hnex.
        apply Exists_exists. exists line.
        split; [by apply list_elem_of_In|done].
    + intros (line & Hin & Hc & Hk) Hall. by apply (Hall line).
  - apply Forall_forall. intros k Hk.
    apply eq_None_not_Some. rewrite Hdom. intros Hne. apply Hne.
    apply quantitiesFor_nil. intros line _ [Hc Hitem].
    unfold contributes in Hc. rewrite Hitem in Hc.
    apply list_elem_of_In, elem_of_cons in Hk as [->|Hk]; [done|].
    apply andb_prop in Hc as [_ Hc]. apply negb_true_iff in Hc.
    assert (Hin : Js.inherited k = true); [|congruence].
    apply existsb_exists. exists k.
    split; [by apply list_elem_of_In|apply String.eqb_refl].
Qed.

(** When the quantities of a transfer are whole numbers with magnitudes
    summing to [2^53] at most, the order of its lines does not matter to
    its map. *)
Theorem getTransferMap_Permutation this other :
  exactlySummable this = true →
  default [] (items this) ≡ₚ default [] (items other) →
  _getTransferMap this = _getTransferMap other.
Proof.
  intros _ Hperm. apply map_eq. intros key. unfold _getTransferMap.
  rewrite !foldl_addToTransferMap_lookup, lookup_empty. simpl.
  assert (Hq : quantitiesFor key (default [] (items this))
               ≡ₚ quantitiesFor key (default [] (items other))).
  { unfold quantitiesFor. by rewrite Hperm. }
  pose proof (sum_Permutation _ _ Hq) as Hsum.
  destruct (quantitiesFor key (default [] (items this))) as [|q qs].
  - apply Permutation_nil_l in Hq. by rewrite <- Hq.
  - destruct (quantitiesFor key (default [] (items other))) as [|q' qs'].
    + by apply Permutation_nil_r in Hq.
    + simpl in *. f_equal. lia.
Qed.

Lemma getTransferMap_Permutation_witness :
  _getTransferMap
    (Samples.shipment Draft [Samples.line "A" 4; Samples.line "B" 7])
  = _getTransferMap
      (Samples.shipment Draft [Samples.line "B" 7; Samples.line "A" 4]).
Proof.
  apply (getTransferMap_Permutation
           (Samples.shipment Draft [Samples.line "A" 4; Samples.line "B" 7])
           (Samples.shipment Draft [Samples.line "B" 7; Samples.line "A" 4])).
  - reflexivity.
  - simpl. apply perm_swap.
Defined.

(** With no negative quantity on its lines, every quantity the map holds
    is strictly positive: a zero never gets in. *)
Theorem getTransferMap_positive this :
  quantitiesNonNegative this = true →
  map_Forall (λ _ v, 0 < v) (_getTransferMap this).
Proof.
  unfold quantitiesNonNegative, _getTransferMap.
  generalize (default [] (items this)) as lines.
  assert (Hgen : ∀ lines (acc : gmap string Z),
    map_Forall (λ _ v, 0 < v) acc →
    forallb (λ line, match StockTransferItem.quantity line with
                     | Some q => 0 <=? q
                     | None => true
                     end) lines = true →
    map_Forall (λ _ v, 0 < v) (foldl addToTransferMap acc lines)).
  { induction lines as [|line lines IH]; intros acc Hacc Hall; [done|].
    simpl in Hall. apply andb_prop in Hall as [Hq Hall]. simpl.
    apply IH; [|done]. destruct (contributes line) eqn:Hc.
    - destruct (addToTransferMap_adds acc line Hc) as (k & q & Hk & Hq' & ->).
      unfold contributes in Hc. rewrite Hq' in Hc, Hq. simpl in Hc.
      apply andb_prop in Hc as [Hc _]. apply andb_prop in Hc as [_ Hnz].
      apply map_Forall_insert_2; [|done].
      destruct (acc !! k) as [v|] eqn:Hv; simpl.
      + specialize (Hacc k v Hv). simpl in Hacc. lia.
      + lia.
    - by rewrite (addToTransferMap_skips acc line Hc). }
  intros lines. apply Hgen. apply map_Forall_empty.
Qed.

Lemma getTransferMap_positive_witness :
  map_Forall (λ _ v, 0 < v)
    (_getTransferMap
       (Samples.shipment Draft
          [Samples.line "A" 4; Samples.line "A" 0; Samples.line "B" 7])).
Proof.
  apply (getTransferMap_positive
           (Samples.shipment Draft
              [Samples.line "A" 4; Samples.line "A" 0; Samples.line "B" 7])).
  reflexivity.
Defined.

(** Splitting the lines of a transfer over two transfers splits its map,
    when its quantities are whole numbers with magnitudes summing to
    [2^53] at most: the map of the whole is the item-wise sum of the maps
    of the parts. *)
Theorem getTransferMap_app this first second :
  exactlySummable (withItems (first ++ second) this) = true →
  _getTransferMap (withItems (first ++ second) this)
  = union_with (λ a b, Some (a + b))
      (_getTransferMap (withItems first this))
      (_getTransferMap (withItems second this)).
Proof.
  intros _. apply map_eq. intros key. rewrite lookup_union_with.
  unfold _getTransferMap. simpl.
  rewrite !foldl_addToTransferMap_lookup, lookup_empty. simpl.
  unfold quantitiesFor. rewrite omap_app.
  destruct (omap _ first) as [|q qs]; simpl.
  - by destruct (omap _ second).
  - destruct (omap _ second) as [|q' qs']; simpl.
    + by rewrite app_nil_r.
    + f_equal. rewrite foldr_app. simpl.
      generalize (q' + foldr Z.add 0 qs') as z.
      induction qs as [|x qs IH]; intros z; simpl; [lia|].
      specialize (IH z). lia.
Qed.

Lemma getTransferMap_app_witness :
  _getTransferMap
    (withItems ([Samples.line "A" 4; Samples.line "B" 7]
                ++ [Samples.line "A" 3])
       (Samples.shipment Draft []))
  = union_with (λ a b, Some (a + b))
      (_getTransferMap
         (withItems [Samples.line "A" 4; Samples.line "B" 7]
            (Samples.shipment Draft [])))
      (_getTransferMap
         (withItems [Samples.line "A" 3] (Samples.shipment Draft []))).
Proof.
  apply (getTransferMap_app (Samples.shipment Draft [])
           [Samples.line "A" 4; Samples.line "B" 7] [Samples.line "A" 3]).
  reflexivity.
Defined.

(** ** More on the loop over the invoice's lines *)

Lemma updateRow_lookup_ne cancelled (transferMap : gmap string Z) row key :
  InvoiceItem.item row ≠ key →
  (updateRow cancelled transferMap row).2 !! key = transferMap !! key.
Proof.
  intros Hne. unfold updateRow.
  destruct (transferMap !! InvoiceItem.item row) as [t|]; [|done].
  destruct (Js.nullish (InvoiceItem.stockNotTransferred row) 0); try done.
  destruct cancelled; simpl; by rewrite lookup_insert_ne.
Qed.

Lemma updateRow_lookup_None cancelled (transferMap : gmap string Z) row key :
  transferMap !! key = None →
  (updateRow cancelled transferMap row).2 !! key = None.
Proof.
  intros Hnone.
  destruct (decide (InvoiceItem.item row = key)) as [Heq|Hne].
  - rewrite updateRow_skip; [done|]. left. by rewrite Heq.
  - by rewrite updateRow_lookup_ne.
Qed.

Lemma updateRows_cons cancelled (transferMap : gmap string Z) row rest :
  updateRows cancelled transferMap (row :: rest)
  = ((updateRow cancelled transferMap row).1
       :: (updateRows cancelled (updateRow cancelled transferMap row).2 rest).1,
     (updateRows cancelled (updateRow cancelled transferMap row).2 rest).2).
Proof.
  simpl. destruct (updateRow cancelled transferMap row) as [row' tm'].
  simpl. by destruct (updateRows cancelled tm' rest).
Qed.

Lemma updateRows_shape cancelled rows :
  ∀ transferMap : gmap string Z,
    length (updateRows cancelled transferMap rows).1 = length rows
    ∧ ∀ (k : nat) row,
        rows !! k = Some row →
        ∃ row',
          (updateRows cancelled transferMap rows).1 !! k = Some row'
          ∧ InvoiceItem.item row' = InvoiceItem.item row
          ∧ InvoiceItem.quantity row' = InvoiceItem.quantity row.
Proof.
  induction rows as [|r rows IH]; intros transferMap; [done|].
  rewrite updateRows_cons. simpl.
  destruct (IH (updateRow cancelled transferMap r).2) as [Hlen Hrows].
  split; [by rewrite Hlen|].
  intros [|k] row Hk; simpl in *.
  - injection Hk as ->. eexists. split; [done|].
    apply updateRow_fields.
  - by apply Hrows.
Qed.

Lemma updateRows_untouched cancelled rows :
  ∀ (transferMap : gmap string Z) (k : nat) row,
    rows !! k = Some row →
    transferMap !! InvoiceItem.item row = None →
    (updateRows cancelled transferMap rows).1 !! k = Some row.
Proof.
  induction rows as [|r rows IH]; intros transferMap k row Hk Hnone; [done|].
  rewrite updateRows_cons.
  destruct k as [|k]; simpl in *.
  - injection Hk as ->. rewrite updateRow_skip; [done|by left].
  - apply IH; [done|]. by apply updateRow_lookup_None.
Qed.

Lemma updateRows_monotone cancelled rows :
  ∀ (transferMap : gmap string Z) (k : nat) row,
    nonNegative transferMap →
    rows !! k = Some row →
    lineInBounds row = true →
    ∃ row' n n',
      (updateRows cancelled transferMap rows).1 !! k = Some row'
      ∧ InvoiceItem.stockNotTransferred row = Js.Number n
      ∧ InvoiceItem.stockNotTransferred row' = Js.Number n'
      ∧ if cancelled then n ≤ n' else n' ≤ n.
Proof.
  induction rows as [|r rows IH]; intros transferMap k row Hmap Hk Hrow;
    [done|].
  rewrite updateRows_cons.
  destruct k as [|k]; simpl in *.
  - injection Hk as ->. unfold lineInBounds in Hrow.
    destruct (InvoiceItem.stockNotTransferred row) as [|n|] eqn:Hn;
      try done.
    apply andb_prop in Hrow as [H0 Hq].
    destruct (transferMap !! InvoiceItem.item row) as [t|] eqn:Ht.
    + specialize (Hmap _ _ Ht). simpl in Hmap.
      rewrite (updateRow_number cancelled transferMap row t n);
        [|done|unfold lineValue; by rewrite Hn].
      simpl. eexists _, n, _. split; [done|]. split; [done|].
      split; [done|]. destruct cancelled; lia.
    + rewrite updateRow_skip by (by left). simpl.
      exists row, n, n. split; [done|]. split; [done|]. split; [done|].
      destruct cancelled; lia.
  - apply IH; [|done..]. by apply updateRow_nonNegative.
Qed.

Lemma itemTotal_bounds key rows :
  itemInBounds key rows = true →
  0 ≤ itemTotal key rows ≤ itemQuantity key rows.
Proof.
  induction rows as [|row rows IH]; simpl; [lia|].
  intros H. apply andb_prop in H as [Hrow Hrest]. specialize (IH Hrest).
  case_decide; [|done].
  destruct (lineValue row) as [n|]; simpl; [|done].
  apply andb_prop in Hrow as [H0 Hq]. lia.
Qed.

(** What the loop does to one line, seen from one item of the map. *)
Lemma updateRow_item cancelled (transferMap : gmap string Z) row key t :
  transferMap !! key = Some t →
  (InvoiceItem.item row ≠ key
   ∧ InvoiceItem.item (updateRow cancelled transferMap row).1 ≠ key
   ∧ (updateRow cancelled transferMap row).2 !! key = Some t)
  ∨ (InvoiceItem.item row = key ∧ lineValue row = None
     ∧ updateRow cancelled transferMap row = (row, transferMap))
  ∨ (InvoiceItem.item row = key
     ∧ ∃ n,
         lineValue row = Some n
         ∧ updateRow cancelled transferMap row
           = (InvoiceItem.setStockNotTransferred row
                (if cancelled then Z.min (n + t) (InvoiceItem.quantity row)
                 else Z.max (n - t) 0),
              <[key :=
                  if cancelled
                  then Z.max (t + n - InvoiceItem.quantity row) 0
                  else Z.max (t - n) 0]> transferMap)).
Proof.
  intros Ht. destruct (decide (InvoiceItem.item row = key)) as [Heq|Hne].
  - right. destruct (lineValue row) as [n|] eqn:Hn.
    + right. split; [done|]. exists n. split; [done|].
      rewrite <- Heq in Ht |- *. by apply updateRow_number.
    + left. split; [done|]. split; [done|]. apply updateRow_skip. by right.
  - left. split; [done|]. split.
    + by rewrite (proj1 (updateRow_fields cancelled transferMap row)).
    + by rewrite updateRow_lookup_ne.
Qed.

Lemma updateRows_submit_item rows :
  ∀ (transferMap : gmap string Z) key t,
    transferMap !! key = Some t →
    0 ≤ t →
    itemInBounds key rows = true →
    (updateRows false transferMap rows).2 !! key
    = Some (Z.max (t - itemTotal key rows) 0)
    ∧ itemTotal key (updateRows false transferMap rows).1
      = Z.max (itemTotal key rows - t) 0
    ∧ itemQuantity key (updateRows false transferMap rows).1
      = itemQuantity key rows
    ∧ itemInBounds key (updateRows false transferMap rows).1 = true.
Proof.
  induction rows as [|row rows IH]; intros transferMap key t Ht Hpos Hok.
  - simpl. rewrite Ht. repeat split; f_equal; lia.
  - rewrite updateRows_cons. simpl in Hok.
    apply andb_prop in Hok as [Hrow Hrest].
    pose proof (itemTotal_bounds key rows Hrest) as Hbounds.
    destruct (updateRow_item false transferMap row key t Ht)
      as [(Hne & Hne' & Ht')|[(Heq & Hn & Hskip)|(Heq & n & Hn & Hrun)]].
    + destruct (IH _ key t Ht' Hpos Hrest) as (Hres & Htot & Hqty & Hin).
      simpl. rewrite !decide_False by done. done.
    + rewrite Hskip. simpl.
      destruct (IH _ key t Ht Hpos Hrest) as (Hres & Htot & Hqty & Hin).
      rewrite !decide_True by done. rewrite Hn. simpl.
      rewrite Hres, Htot, Hqty, Hin. repeat split; f_equal; lia.
    + rewrite Hrun. simpl. rewrite decide_True in Hrow by done.
      rewrite Hn in Hrow. apply andb_prop in Hrow as [H0 Hq].
      destruct (IH (<[key := Z.max (t - n) 0]> transferMap) key
                  (Z.max (t - n) 0)) as (Hres & Htot & Hqty & Hin);
        [apply lookup_insert_eq|lia|done|].
      rewrite !decide_True by done. rewrite Hn. simpl.
      rewrite Hres, Htot, Hqty, Hin.
      repeat split; [f_equal; lia|lia|].
      apply andb_true_intro. split; [|done].
      apply andb_true_intro. split; lia.
Qed.

Lemma updateRows_cancel_item rows :
  ∀ (transferMap : gmap string Z) key t,
    transferMap !! key = Some t →
    0 ≤ t →
    itemInBounds key rows = true →
    (updateRows true transferMap rows).2 !! key
    = Some (Z.max (t - (itemQuantity key rows - itemTotal key rows)) 0)
    ∧ itemTotal key (updateRows true transferMap rows).1
      = Z.min (itemTotal key rows + t) (itemQuantity key rows)
    ∧ itemQuantity key (updateRows true transferMap rows).1
      = itemQuantity key rows
    ∧ itemInBounds key (updateRows true transferMap rows).1 = true.
Proof.
  induction rows as [|row rows IH]; intros transferMap key t Ht Hpos Hok.
  - simpl. rewrite Ht. repeat split; f_equal; lia.
  - rewrite updateRows_cons. simpl in Hok.
    apply andb_prop in Hok as [Hrow Hrest].
    pose proof (itemTotal_bounds key rows Hrest) as Hbounds.
    destruct (updateRow_item true transferMap row key t Ht)
      as [(Hne & Hne' & Ht')|[(Heq & Hn & Hskip)|(Heq & n & Hn & Hrun)]].
    + destruct (IH _ key t Ht' Hpos Hrest) as (Hres & Htot & Hqty & Hin).
      simpl. rewrite !decide_False by done. done.
    + rewrite Hskip. simpl.
      destruct (IH _ key t Ht Hpos Hrest) as (Hres & Htot & Hqty & Hin).
      rewrite !decide_True by done. rewrite Hn. simpl.
      rewrite Hres, Htot, Hqty, Hin. repeat split; f_equal; lia.
    + rewrite Hrun. simpl. rewrite decide_True in Hrow by done.
      rewrite Hn in Hrow. apply andb_prop in Hrow as [H0 Hq].
      destruct (IH (<[key := Z.max (t + n - InvoiceItem.quantity row) 0]>
                      transferMap) key
                  (Z.max (t + n - InvoiceItem.quantity row) 0))
        as (Hres & Htot & Hqty & Hin);
        [apply lookup_insert_eq|lia|done|].
      rewrite !decide_True by done. rewrite Hn. simpl.
      rewrite Hres, Htot, Hqty, Hin.
      repeat split; [f_equal; lia|lia|].
      apply andb_true_intro. split; [|done].
      apply andb_true_intro. split; lia.
Qed.

Lemma updateRows_item_absent cancelled rows :
  ∀ (transferMap : gmap string Z) key,
    transferMap !! key = None →
    itemTotal key (updateRows cancelled transferMap rows).1
    = itemTotal key rows.
Proof.
  induction rows as [|row rows IH]; intros transferMap key Hnone; [done|].
  rewrite updateRows_cons. simpl.
  rewrite (proj1 (updateRow_fields cancelled transferMap row)).
  rewrite IH by (by apply updateRow_lookup_None).
  case_decide as Heq; [|done].
  rewrite updateRow_skip; [done|]. left. by rewrite Heq.
Qed.

Lemma updateRows_conserves_any cancelled rows :
  ∀ (transferMap : gmap string Z) key t,
    transferMap !! key = Some t →
    ∃ t',
      (updateRows cancelled transferMap rows).2 !! key = Some t'
      ∧ if cancelled then
          itemTotal key (updateRows cancelled transferMap rows).1 + t'
          = itemTotal key rows + t
        else
          itemTotal key (updateRows cancelled transferMap rows).1 - t'
          = itemTotal key rows - t.
Proof.
  induction rows as [|row rows IH]; intros transferMap key t Ht.
  - exists t. simpl. split; [done|]. by destruct cancelled.
  - rewrite updateRows_cons.
    destruct (updateRow_item cancelled transferMap row key t Ht)
      as [(Hne & Hne' & Ht')|[(Heq & Hn & Hskip)|(Heq & n & Hn & Hrun)]].
    + destruct (IH _ key t Ht') as (t' & Hres & Hsum).
      exists t'. simpl. by rewrite !decide_False.
    + rewrite Hskip. simpl.
      destruct (IH _ key t Ht) as (t' & Hres & Hsum).
      exists t'. split; [done|]. rewrite !decide_True by done.
      destruct cancelled; lia.
    + rewrite Hrun. simpl.
      destruct cancelled.
      * destruct (IH (<[key := Z.max (t + n - InvoiceItem.quantity row) 0]>
                        transferMap) key
                    (Z.max (t + n - InvoiceItem.quantity row) 0))
          as (t' & Hres & Hsum); [apply lookup_insert_eq|].
        exists t'. split; [done|]. rewrite !decide_True by done.
        rewrite Hn. simpl in *. lia.
      * destruct (IH (<[key := Z.max (t - n) 0]> transferMap) key
                    (Z.max (t - n) 0))
          as (t' & Hres & Hsum); [apply lookup_insert_eq|].
        exists t'. split; [done|]. rewrite !decide_True by done.
        rewrite Hn. simpl in *. lia.
Qed.

(** Over the whole loop, with whole numbers within [0 .. 2^52] (the lines
    of the item within their bounds, their quantities summing to [2^52] at
    most), what the lines of an item gain or lose is what the item's
    residual loses: a submit keeps the difference of the item's total and
    its residual, a cancel keeps their sum. *)
Theorem updateRows_conserves cancelled rows (transferMap : gmap string Z)
    key t :
  transferMap !! key = Some t →
  Js.exact t = true →
  itemInBounds key rows = true →
  itemQuantity key rows ≤ 2 ^ 52 →
  ∃ t',
    (updateRows cancelled transferMap rows).2 !! key = Some t'
    ∧ if cancelled then
        itemTotal key (updateRows cancelled transferMap rows).1 + t'
        = itemTotal key rows + t
      else
        itemTotal key (updateRows cancelled transferMap rows).1 - t'
        = itemTotal key rows - t.
Proof. intros Ht _ _ _. by apply updateRows_conserves_any. Qed.

Lemma updateRows_conserves_witness :
  ∃ t',
    (updateRows false {[ "B" := 7 ]}
       [InvoiceItem.mk "B" 5 (Js.Number 5);
        InvoiceItem.mk "A" 9 (Js.Number 9);
        InvoiceItem.mk "B" 5 (Js.Number 5)]).2 !! "B" = Some t'
    ∧ itemTotal "B"
        (updateRows false {[ "B" := 7 ]}
           [InvoiceItem.mk "B" 5 (Js.Number 5);
            InvoiceItem.mk "A" 9 (Js.Number 9);
            InvoiceItem.mk "B" 5 (Js.Number 5)]).1 - t'
      = itemTotal "B"
          [InvoiceItem.mk "B" 5 (Js.Number 5);
           InvoiceItem.mk "A" 9 (Js.Number 9);
           InvoiceItem.mk "B" 5 (Js.Number 5)] - 7.
Proof.
  apply (updateRows_conserves false
           [InvoiceItem.mk "B" 5 (Js.Number 5);
            InvoiceItem.mk "A" 9 (Js.Number 9);
            InvoiceItem.mk "B" 5 (Js.Number 5)]
           {[ "B" := 7 ]} "B" 7).
  - vm_compute. reflexivity.
  - reflexivity.
  - reflexivity.
  - vm_compute. discriminate.
Defined.

(** ** More on a whole event *)

Section MoreEvents.

Variable getStockNotTransferred : Invoice.t → Z.

Lemma storedRows_setAndSync fyo schema name cancelled
    (transferMap : gmap string Z) invoice v :
  storedRows
    (setAndSync fyo schema name (withRows cancelled transferMap invoice) v)
    schema name
  = (updateRows cancelled transferMap (default [] (Invoice.items invoice))).1.
Proof.
  unfold storedRows, setAndSync, withRows. simpl.
  rewrite lookup_insert_eq. simpl.
  by destruct (Invoice.items invoice).
Qed.

(** The lines an event leaves in the store: those that were there, or
    those the loop made of them. *)
Lemma _updateBackReference_rows fyo this fyo' :
  _updateBackReference getStockNotTransferred fyo this = Ok fyo' →
  ∀ schema name,
    storedRows fyo' schema name = storedRows fyo schema name
    ∨ storedRows fyo' schema name
      = (updateRows (isCancelled this) (_getTransferMap this)
           (storedRows fyo schema name)).1.
Proof.
  intros Hrun schema name. unfold _updateBackReference in Hrun.
  destruct (negb (isCancelled this) && negb (isSubmitted this));
    [injection Hrun as <-; by left|].
  destruct (negb (Js.truthyString (backReference this)));
    [injection Hrun as <-; by left|].
  destruct (backReference this) as [ref|]; [|injection Hrun as <-; by left].
  unfold getDoc in Hrun.
  destruct (docs fyo !! (invoiceSchema this, ref)) as [invoice|] eqn:Hdoc;
    [|done].
  simpl in Hrun. injection Hrun as <-.
  destruct (decide ((invoiceSchema this, ref) = (schema, name))) as [Heq|Hne].
  - right. injection Heq as <- <-. rewrite storedRows_setAndSync.
    unfold storedRows. by rewrite Hdoc.
  - left. unfold storedRows, setAndSync. simpl.
    by rewrite lookup_insert_ne.
Qed.

Lemma _updateBackReference_event fyo this name invoice :
  status this ≠ Draft →
  backReference this = Some name →
  name ≠ "" →
  docs fyo !! (invoiceSchema this, name) = Some invoice →
  ∃ fyo' invoice',
    _updateBackReference getStockNotTransferred fyo this = Ok fyo'
    ∧ docs fyo' !! (invoiceSchema this, name) = Some invoice'
    ∧ default [] (Invoice.items invoice')
      = (updateRows (isCancelled this) (_getTransferMap this)
           (default [] (Invoice.items invoice))).1.
Proof.
  intros Hst Href Hname Hdoc.
  rewrite (_updateBackReference_run getStockNotTransferred fyo this name
             invoice Hst Href Hname Hdoc).
  eexists _, _. split; [reflexivity|].
  unfold setAndSync. simpl. rewrite lookup_insert_eq.
  split; [reflexivity|]. simpl. by destruct (Invoice.items invoice).
Qed.

(** A draft, and a transfer without a back reference (or with an empty
    one), reconciles nothing: the store comes back as it went in. *)
Theorem reconcile_noop fyo this :
  status this = Draft ∨ Js.truthyString (backReference this) = false →
  _updateBackReference getStockNotTransferred fyo this = Ok fyo.
Proof.
  intros [Hdraft|Href]; unfold _updateBackReference.
  - unfold isCancelled, isSubmitted. by rewrite Hdraft.
  - rewrite Href. simpl.
    by destruct (negb (isCancelled this) && negb (isSubmitted this)).
Qed.

(** An event writes one document at most, the invoice its back reference
    names, a sales invoice for a shipment and a purchase invoice
    otherwise; every other document, the settings and the accounts are
    left alone. *)
Theorem reconcile_frame fyo this fyo' :
  _updateBackReference getStockNotTransferred fyo this = Ok fyo' →
  singles_InventorySettings fyo' = singles_InventorySettings fyo
  ∧ accounts fyo' = accounts fyo
  ∧ ∀ schema name,
      (schema ≠ (if isSales this then SalesInvoice else PurchaseInvoice)
       ∨ backReference this ≠ Some name) →
      docs fyo' !! (schema, name) = docs fyo !! (schema, name).
Proof.
  intros Hrun. unfold _updateBackReference in Hrun.
  destruct (negb (isCancelled this) && negb (isSubmitted this));
    [by injection Hrun as <-|].
  destruct (negb (Js.truthyString (backReference this)));
    [by injection Hrun as <-|].
  destruct (backReference this) as [ref|]; [|by injection Hrun as <-].
  unfold getDoc in Hrun.
  destruct (docs fyo !! (invoiceSchema this, ref)) as [invoice|]; [|done].
  simpl in Hrun. injection Hrun as <-. simpl.
  split; [done|]. split; [done|].
  intros schema name Hother. apply lookup_insert_ne.
  unfold invoiceSchema. intros Heq. injection Heq as Hs Hn.
  destruct Hother as [Hother|Hother]; [by apply Hother|].
  apply Hother. by rewrite Hn.
Qed.

End MoreEvents.

Lemma reconcile_noop_witness :
  _updateBackReference sumOfLines
    (Samples.fyoWith [InvoiceItem.mk "A" 10 (Js.Number 10)])
    (Samples.shipment Draft [Samples.line "A" 4])
  = Ok (Samples.fyoWith [InvoiceItem.mk "A" 10 (Js.Number 10)]).
Proof.
  apply (reconcile_noop sumOfLines
           (Samples.fyoWith [InvoiceItem.mk "A" 10 (Js.Number 10)])
           (Samples.shipment Draft [Samples.line "A" 4])).
  left. reflexivity.
Defined.

Lemma reconcile_frame_witness :
  let fyo := Samples.fyoWith [InvoiceItem.mk "A" 10 (Js.Number 10)] in
  let this := Samples.shipment Submitted [Samples.line "A" 4] in
  singles_InventorySettings (reconcileAll sumOfLines fyo [this])
  = singles_InventorySettings fyo
  ∧ accounts (reconcileAll sumOfLines fyo [this]) = accounts fyo
  ∧ ∀ schema name,
      (schema ≠ SalesInvoice ∨ Some "SINV-1" ≠ Some name) →
      docs (reconcileAll sumOfLines fyo [this]) !! (schema, name)
      = docs fyo !! (schema, name).
Proof.
  intros fyo this.
  apply (reconcile_frame sumOfLines fyo this
           (reconcileAll sumOfLines fyo [this])).
  vm_compute. reflexivity.
Defined.

Section EventProperties.

Variable getStockNotTransferred : Invoice.t → Z.

(** An event never adds, drops or reorders the lines of an invoice, and
    never changes a line's item or quantity. *)
Theorem reconcile_shape fyo this fyo' :
  _updateBackReference getStockNotTransferred fyo this = Ok fyo' →
  ∀ schema name,
    length (storedRows fyo' schema name)
    = length (storedRows fyo schema name)
    ∧ ∀ (k : nat) row,
        storedRows fyo schema name !! k = Some row →
        ∃ row',
          storedRows fyo' schema name !! k = Some row'
          ∧ InvoiceItem.item row' = InvoiceItem.item row
          ∧ InvoiceItem.quantity row' = InvoiceItem.quantity row.
Proof.
  intros Hrun schema name.
  destruct (_updateBackReference_rows getStockNotTransferred fyo this fyo'
              Hrun schema name) as [-> | ->].
  - split; [done|]. intros k row Hk. by exists row.
  - apply updateRows_shape.
Qed.

(** An event leaves alone every line whose item the transfer's map does
    not hold. *)
Theorem reconcile_untouched fyo this fyo' :
  _updateBackReference getStockNotTransferred fyo this = Ok fyo' →
  ∀ schema name (k : nat) row,
    storedRows fyo schema name !! k = Some row →
    _getTransferMap this !! InvoiceItem.item row = None →
    storedRows fyo' schema name !! k = Some row.
Proof.
  intros Hrun schema name k row Hk Hnone.
  destruct (_updateBackReference_rows getStockNotTransferred fyo this fyo'
              Hrun schema name) as [-> | ->]; [done|].
  by apply updateRows_untouched.
Qed.

(** With no negative quantity on the transfer, a line within its bounds
    never goes up on a submit and never goes down on a cancel. *)
Theorem reconcile_monotone fyo this fyo' :
  quantitiesNonNegative this = true →
  _updateBackReference getStockNotTransferred fyo this = Ok fyo' →
  ∀ schema name (k : nat) row,
    storedRows fyo schema name !! k = Some row →
    lineInBounds row = true →
    ∃ row' n n',
      storedRows fyo' schema name !! k = Some row'
      ∧ InvoiceItem.stockNotTransferred row = Js.Number n
      ∧ InvoiceItem.stockNotTransferred row' = Js.Number n'
      ∧ if isCancelled this then n ≤ n' else n' ≤ n.
Proof.
  intros Hq Hrun schema name k row Hk Hrow.
  destruct (_updateBackReference_rows getStockNotTransferred fyo this fyo'
              Hrun schema name) as [-> | ->].
  - unfold lineInBounds in Hrow.
    destruct (InvoiceItem.stockNotTransferred row) as [|n|] eqn:Hn; try done.
    exists row, n, n. repeat split; try done.
    destruct (isCancelled this); lia.
  - apply updateRows_monotone; [|done..].
    by apply _getTransferMap_nonNegative.
Qed.

Lemma quantitiesExact_nonNegative this :
  quantitiesExact this = true → quantitiesNonNegative this = true.
Proof.
  unfold quantitiesExact, quantitiesNonNegative. intros H.
  by apply andb_prop in H as [H _].
Qed.

Lemma transferred_nonNegative this key :
  quantitiesNonNegative this = true →
  0 ≤ default 0 (_getTransferMap this !! key).
Proof.
  intros Hq. pose proof (_getTransferMap_nonNegative this Hq) as Hmap.
  destruct (_getTransferMap this !! key) as [t|] eqn:Ht; simpl; [|lia].
  by specialize (Hmap key t Ht).
Qed.

(** With whole numbers within [0 .. 2^52], a submit takes the transferred
    quantity of an item off what the invoice still owes of it, down to
    zero at most: the total of the item's lines becomes [max(T − t, 0)]. *)
Theorem submit_item_total fyo this name invoice key :
  status this = Submitted →
  backReference this = Some name →
  name ≠ "" →
  docs fyo !! (invoiceSchema this, name) = Some invoice →
  quantitiesExact this = true →
  itemInBounds key (default [] (Invoice.items invoice)) = true →
  itemQuantity key (default [] (Invoice.items invoice)) ≤ 2 ^ 52 →
  ∃ fyo',
    _updateBackReference getStockNotTransferred fyo this = Ok fyo'
    ∧ itemTotal key (storedRows fyo' (invoiceSchema this) name)
      = Z.max (itemTotal key (default [] (Invoice.items invoice))
               - default 0 (_getTransferMap this !! key)) 0.
Proof.
  intros Hst Href Hname Hdoc Hq Hin _.
  apply quantitiesExact_nonNegative in Hq.
  destruct (_updateBackReference_event getStockNotTransferred fyo this name
              invoice) as (fyo' & invoice' & Hrun & Hdoc' & Hrows);
    [by rewrite Hst|done..|].
  exists fyo'. split; [done|].
  unfold storedRows. rewrite Hdoc', Hrows.
  replace (isCancelled this) with false
    by (unfold isCancelled; by rewrite Hst).
  pose proof (transferred_nonNegative this key Hq) as Hpos.
  pose proof (itemTotal_bounds key _ Hin) as Hbounds.
  destruct (_getTransferMap this !! key) as [t|] eqn:Ht; simpl in *.
  - by destruct (updateRows_submit_item _ _ key t Ht Hpos Hin) as (_ & -> & _).
  - rewrite updateRows_item_absent by done. lia.
Qed.

(** With whole numbers within [0 .. 2^52], a cancel gives the transferred
    quantity of an item back to what the invoice owes of it, up to what it
    asked for at most: the total of the item's lines becomes
    [min(T + t, Q)]. *)
Theorem cancel_item_total fyo this name invoice key :
  status this = Cancelled →
  backReference this = Some name →
  name ≠ "" →
  docs fyo !! (invoiceSchema this, name) = Some invoice →
  quantitiesExact this = true →
  itemInBounds key (default [] (Invoice.items invoice)) = true →
  itemQuantity key (default [] (Invoice.items invoice)) ≤ 2 ^ 52 →
  ∃ fyo',
    _updateBackReference getStockNotTransferred fyo this = Ok fyo'
    ∧ itemTotal key (storedRows fyo' (invoiceSchema this) name)
      = Z.min (itemTotal key (default [] (Invoice.items invoice))
               + default 0 (_getTransferMap this !! key))
              (itemQuantity key (default [] (Invoice.items invoice))).
Proof.
  intros Hst Href Hname Hdoc Hq Hin _.
  apply quantitiesExact_nonNegative in Hq.
  destruct (_updateBackReference_event getStockNotTransferred fyo this name
              invoice) as (fyo' & invoice' & Hrun & Hdoc' & Hrows);
    [by rewrite Hst|done..|].
  exists fyo'. split; [done|].
  unfold storedRows. rewrite Hdoc', Hrows.
  replace (isCancelled this) with true
    by (unfold isCancelled; by rewrite Hst).
  pose proof (transferred_nonNegative this key Hq) as Hpos.
  pose proof (itemTotal_bounds key _ Hin) as Hbounds.
  destruct (_getTransferMap this !! key) as [t|] eqn:Ht; simpl in *.
  - by destruct (updateRows_cancel_item _ _ key t Ht Hpos Hin) as (_ & -> & _).
  - rewrite updateRows_item_absent by done. lia.
Qed.

(** With whole numbers within [0 .. 2^52], a submit followed by the
    cancel of the same transfer leaves the total an invoice owes of an
    item at [min(max(T, t), Q)]: never below what it was, and exactly what
    it was when the transfer did not exceed it ([t ≤ T]) or nothing had
    been transferred yet ([T = Q]). *)
Theorem submit_then_cancel_item_total fyo this name invoice key :
  backReference this = Some name →
  name ≠ "" →
  docs fyo !! (invoiceSchema this, name) = Some invoice →
  quantitiesExact this = true →
  itemInBounds key (default [] (Invoice.items invoice)) = true →
  itemQuantity key (default [] (Invoice.items invoice)) ≤ 2 ^ 52 →
  let T := itemTotal key (default [] (Invoice.items invoice)) in
  let Q := itemQuantity key (default [] (Invoice.items invoice)) in
  let t := default 0 (_getTransferMap this !! key) in
  let T' :=
    itemTotal key
      (storedRows
         (reconcileAll getStockNotTransferred fyo
            [withStatus Submitted this; withStatus Cancelled this])
         (invoiceSchema this) name) in
  T' = Z.min (Z.max T t) Q
  ∧ T ≤ T'
  ∧ (T' = T ↔ t ≤ T ∨ T = Q).
Proof.
  intros Href Hname Hdoc Hq Hin _ T Q t T'.
  apply quantitiesExact_nonNegative in Hq.
  assert (HT' : T' = Z.min (Z.max T t) Q).
  { subst T'. simpl.
    destruct (_updateBackReference_event getStockNotTransferred fyo
                (withStatus Submitted this) name invoice)
      as (fyo1 & invoice1 & Hrun1 & Hdoc1 & Hrows1); [done..|].
    rewrite Hrun1.
    destruct (_updateBackReference_event getStockNotTransferred fyo1
                (withStatus Cancelled this) name invoice1)
      as (fyo2 & invoice2 & Hrun2 & Hdoc2 & Hrows2); [done..|].
    rewrite Hrun2.
    change (invoiceSchema (withStatus Cancelled this))
      with (invoiceSchema this) in Hdoc2.
    unfold storedRows. rewrite Hdoc2, Hrows2, Hrows1.
    change (_getTransferMap (withStatus Cancelled this))
      with (_getTransferMap this).
    change (_getTransferMap (withStatus Submitted this))
      with (_getTransferMap this).
    change (isCancelled (withStatus Cancelled this)) with true.
    change (isCancelled (withStatus Submitted this)) with false.
    pose proof (transferred_nonNegative this key Hq) as Hpos.
    pose proof (itemTotal_bounds key _ Hin) as Hbounds.
    subst T Q t.
    destruct (_getTransferMap this !! key) as [t|] eqn:Ht; simpl in *.
    - destruct (updateRows_submit_item (default [] (Invoice.items invoice))
                  _ key t Ht Hpos Hin) as (_ & Htot1 & Hqty1 & Hin1).
      destruct (updateRows_cancel_item
                  (updateRows false (_getTransferMap this)
                     (default [] (Invoice.items invoice))).1
                  _ key t Ht Hpos Hin1) as (_ & Htot2 & _).
      rewrite Htot2, Htot1, Hqty1. lia.
    - rewrite !updateRows_item_absent by done. lia. }
  pose proof (transferred_nonNegative this key Hq) as Hpos.
  pose proof (itemTotal_bounds key _ Hin) as Hbounds.
  fold T Q in Hbounds. fold t in Hpos.
  split; [done|]. rewrite HT'. split; lia.
Qed.

End EventProperties.

Lemma reconcile_shape_witness :
  let fyo :=
    Samples.fyoWith [InvoiceItem.mk "B" 5 (Js.Number 5);
                     InvoiceItem.mk "A" 9 (Js.Number 9)] in
  let this := Samples.shipment Submitted [Samples.line "B" 7] in
  length (storedRows (reconcileAll sumOfLines fyo [this]) SalesInvoice "SINV-1")
  = 2%nat.
Proof.
  intros fyo this.
  apply (proj1 (reconcile_shape sumOfLines fyo this
                  (reconcileAll sumOfLines fyo [this])
                  ltac:(vm_compute; reflexivity) SalesInvoice "SINV-1")).
Defined.

Lemma reconcile_untouched_witness :
  let fyo :=
    Samples.fyoWith [InvoiceItem.mk "B" 5 (Js.Number 5);
                     InvoiceItem.mk "A" 9 (Js.Number 9)] in
  let this := Samples.shipment Submitted [Samples.line "B" 7] in
  storedRows (reconcileAll sumOfLines fyo [this]) SalesInvoice "SINV-1"
    !! 1%nat
  = Some (InvoiceItem.mk "A" 9 (Js.Number 9)).
Proof.
  intros fyo this.
  apply (reconcile_untouched sumOfLines fyo this
           (reconcileAll sumOfLines fyo [this])).
  - vm_compute. reflexivity.
  - vm_compute. reflexivity.
  - vm_compute. reflexivity.
Defined.

Lemma reconcile_monotone_witness :
  let fyo :=
    Samples.fyoWith [InvoiceItem.mk "B" 5 (Js.Number 5);
                     InvoiceItem.mk "A" 9 (Js.Number 9)] in
  let this := Samples.shipment Submitted [Samples.line "B" 7] in
  ∃ row' n n',
    storedRows (reconcileAll sumOfLines fyo [this]) SalesInvoice "SINV-1"
      !! 0%nat = Some row'
    ∧ Js.Number 5 = Js.Number n
    ∧ InvoiceItem.stockNotTransferred row' = Js.Number n'
    ∧ n' ≤ n.
Proof.
  intros fyo this.
  apply (reconcile_monotone sumOfLines fyo this
           (reconcileAll sumOfLines fyo [this]) eq_refl
           ltac:(vm_compute; reflexivity) SalesInvoice "SINV-1" 0%nat
           (InvoiceItem.mk "B" 5 (Js.Number 5))).
  - vm_compute. reflexivity.
  - reflexivity.
Defined.

Lemma submit_item_total_witness :
  let rows :=
    [InvoiceItem.mk "B" 5 (Js.Number 5); InvoiceItem.mk "A" 9 (Js.Number 9);
     InvoiceItem.mk "B" 5 (Js.Number 5)] in
  let this := Samples.shipment Submitted [Samples.line "B" 7] in
  ∃ fyo',
    _updateBackReference sumOfLines (Samples.fyoWith rows) this = Ok fyo'
    ∧ itemTotal "B" (storedRows fyo' SalesInvoice "SINV-1")
      = Z.max (10 - 7) 0.
Proof.
  intros rows this.
  apply (submit_item_total sumOfLines (Samples.fyoWith rows) this "SINV-1"
           (Samples.invoiceOf rows) "B").
  - reflexivity.
  - reflexivity.
  - discriminate.
  - vm_compute. reflexivity.
  - reflexivity.
  - reflexivity.
  - vm_compute. discriminate.
Defined.

Lemma cancel_item_total_witness :
  let rows :=
    [InvoiceItem.mk "B" 5 (Js.Number 0); InvoiceItem.mk "A" 9 (Js.Number 9);
     InvoiceItem.mk "B" 5 (Js.Number 3)] in
  let this := Samples.shipment Cancelled [Samples.line "B" 7] in
  ∃ fyo',
    _updateBackReference sumOfLines (Samples.fyoWith rows) this = Ok fyo'
    ∧ itemTotal "B" (storedRows fyo' SalesInvoice "SINV-1")
      = Z.min (3 + 7) 10.
Proof.
  intros rows this.
  apply (cancel_item_total sumOfLines (Samples.fyoWith rows) this "SINV-1"
           (Samples.invoiceOf rows) "B").
  - reflexivity.
  - reflexivity.
  - discriminate.
  - vm_compute. reflexivity.
  - reflexivity.
  - reflexivity.
  - vm_compute. discriminate.
Defined.

Lemma submit_then_cancel_item_total_witness :
  let rows :=
    [InvoiceItem.mk "B" 5 (Js.Number 3); InvoiceItem.mk "B" 5 (Js.Number 5)] in
  let this := Samples.shipment Draft [Samples.line "B" 4] in
  let T' :=
    itemTotal "B"
      (storedRows
         (reconcileAll sumOfLines (Samples.fyoWith rows)
            [withStatus Submitted this; withStatus Cancelled this])
         SalesInvoice "SINV-1") in
  T' = Z.min (Z.max 8 4) 10
  ∧ 8 ≤ T'
  ∧ (T' = 8 ↔ 4 ≤ 8 ∨ 8 = 10).
Proof.
  intros rows this.
  apply (submit_then_cancel_item_total sumOfLines (Samples.fyoWith rows) this
           "SINV-1" (Samples.invoiceOf rows) "B").
  - reflexivity.
  - discriminate.
  - vm_compute. reflexivity.
  - reflexivity.
  - reflexivity.
  - vm_compute. discriminate.
Defined.

(** ** Duplicates, filters and movement records *)

(** A duplicate is not linked to the invoice of the transfer it copies:
    whatever its status, updating its back reference writes nothing. *)
Theorem duplicate_never_reconciles
    (getStockNotTransferred : Invoice.t → Z)
    (superDuplicate : StockTransfer → StockTransfer) fyo this :
  backReference (duplicate superDuplicate this) = None
  ∧ _updateBackReference getStockNotTransferred fyo
      (duplicate superDuplicate this)
    = Ok fyo.
Proof.
  split; [done|]. unfold _updateBackReference. simpl.
  by destruct (negb (isCancelled (duplicate superDuplicate this))
               && negb (isSubmitted (duplicate superDuplicate this))).
Qed.

(** The role a party is created with from a transfer is one the party
    filter of that transfer lets through; the filter always lets [Both]
    through, and never the role of the other direction. *)
Theorem party_filters_agree doc :
  ∃ created allowed,
    createFilters_party doc = [("role", Is created)]
    ∧ filters_party doc = [("role", OneOf allowed)]
    ∧ admits (OneOf allowed) created = true
    ∧ admits (OneOf allowed) "Both" = true
    ∧ admits (OneOf allowed) (if isSales doc then "Supplier" else "Customer")
      = false.
Proof.
  unfold createFilters_party, filters_party.
  eexists _, _. split; [reflexivity|]. split; [reflexivity|].
  by destruct (isSales doc).
Qed.

(** Nothing of a line is lost in its movement record: the line can be read
    back from it, so the records are the lines, in order. *)
Theorem getTransferDetails_roundtrip this :
  lineOfDetails <$> _getTransferDetails this = default [] (items this).
Proof.
  unfold _getTransferDetails.
  induction (default [] (items this)) as [|row rows IH]; [done|].
  rewrite !fmap_cons, IH. f_equal.
  unfold lineOfDetails. simpl.
  destruct row as [item rate quantity location]. simpl.
  by destruct (isSales this), location.
Qed.

(** ** More on validation *)

(** Validation passes exactly when [stockInHand] and the second setting
    of the transfer's direction each name an existing account; the setting
    of the other direction is not looked at. *)
Theorem validateAccounts_passes_iff fyo this :
  validateAccounts fyo this = Ok tt ↔
  (∃ account,
     inventorySetting fyo "stockInHand" = Some account
     ∧ account ≠ "" ∧ account ∈ accounts fyo)
  ∧ (∃ account,
       inventorySetting fyo
         (if isSales this then "costOfGoodsSold"
          else "stockReceivedButNotBilled") = Some account
       ∧ account ≠ "" ∧ account ∈ accounts fyo).
Proof.
  rewrite validateAccounts_Ok. unfold requiredSettings. split.
  - intros Hall. split; apply Hall; destruct (isSales this); set_solver.
  - intros [Hfirst Hsecond] setting Hin.
    apply elem_of_app in Hin as [Hin|Hin].
    + apply list_elem_of_singleton in Hin as ->. done.
    + destruct (isSales this);
        apply list_elem_of_singleton in Hin as ->; done.
Qed.

(** A problem with [stockInHand] blocks the posting of every transfer,
    outbound or inbound, and its message opens the error thrown. *)
Theorem getPosting_stockInHand_first
    (roundOffAccount : option string) fyo this problem :
  problemOf fyo "stockInHand" = Some problem →
  ∃ rest,
    validateAccounts fyo this = Throw (ValidationError (problem +:+ rest))
    ∧ getPosting roundOffAccount fyo this
      = Throw (ValidationError (problem +:+ rest)).
Proof.
  intros Hproblem.
  assert (Hmessages : ∃ others,
    collectMessages fyo this = problem :: others).
  { rewrite collectMessages_problems. unfold requiredSettings. simpl.
    rewrite Hproblem. by eexists. }
  destruct Hmessages as [others Hmessages].
  destruct (validateAccounts_cases fyo this) as [[Hnil _]|[_ Hthrow]];
    [congruence|].
  rewrite Hmessages in Hthrow.
  exists (match others with
          | [] => ""
          | _ => " " +:+ Js.join " " others
          end).
  assert (Hjoin : Js.join " " (problem :: others)
                  = problem +:+ match others with
                                | [] => ""
                                | _ => " " +:+ Js.join " " others
                                end).
  { destruct others; simpl; [by rewrite append_empty_r|done]. }
  rewrite Hjoin in Hthrow. split; [done|].
  by apply getPosting_invalid.
Qed.

Lemma getPosting_stockInHand_first_witness :
  ∃ rest,
    validateAccounts (mkFyo None Samples.fieldOf ∅ ∅) Samples.receipt
    = Throw (ValidationError
               ("stockInHand account not set in Inventory Settings."
                +:+ rest))
    ∧ getPosting None (mkFyo None Samples.fieldOf ∅ ∅) Samples.receipt
      = Throw (ValidationError
                 ("stockInHand account not set in Inventory Settings."
                  +:+ rest)).
Proof.
  apply (getPosting_stockInHand_first None (mkFyo None Samples.fieldOf ∅ ∅)
           Samples.receipt).
  reflexivity.
Defined.

(** ** The item document *)

(** The income account an item is given exists in the ledger, unless it
    is the empty string: [Sales] for a product, [Service] for anything
    else. *)
Theorem incomeAccount_exists fyo item :
  Item.incomeAccount fyo item = ""
  ∨ (Item.incomeAccount fyo item ∈ accounts fyo
     ∧ Item.incomeAccount fyo item
       = if decide (Item.itemType item = Some "Product")
         then "Sales" else "Service").
Proof.
  unfold Item.incomeAccount, db_exists.
  case_bool_decide as Hin; [right|by left]. done.
Qed.

(** An item that is not inserted yet offers no action; an inserted one
    always offers at least one of [New Sale] and [New Purchase], and both
    unless it is for purchases only or for sales only. *)
Theorem availableActions_inserted doc :
  (Item.availableActions doc = [] ↔ Item.notInserted doc = true)
  ∧ (Item.availableActions doc = ["New Sale"; "New Purchase"] ↔
     Item.notInserted doc = false
     ∧ Item.for_ doc ≠ Some "Purchases"
     ∧ Item.for_ doc ≠ Some "Sales").
Proof.
  unfold Item.availableActions, Item.newSaleCondition,
    Item.newPurchaseCondition.
  destruct (Item.notInserted doc); simpl.
  - split; [done|]. split; [done|]. by intros [? _].
  - repeat case_bool_decide; simpl; split; split; try done;
      try (by intros (_ & ? & ?)); congruence.
Qed.

(** When a purchase receipt validates, the expense account of a tracked
    item is set and exists: it is the account of
    [stockReceivedButNotBilled], the one the receipt is checked
    against. *)
Theorem tracked_expenseAccount_valid fyo cogs item this :
  Item.trackItem item = Some true →
  isSales this = false →
  validateAccounts fyo this = Ok tt →
  ∃ account,
    Item.expenseAccount fyo cogs item = Some account
    ∧ account ≠ ""
    ∧ account ∈ accounts fyo
    ∧ inventorySetting fyo "stockReceivedButNotBilled" = Some account.
Proof.
  intros Htrack Hin Hok. unfold Item.expenseAccount. rewrite Htrack.
  destruct (proj1 (validateAccounts_Ok fyo this) Hok
              "stockReceivedButNotBilled") as (account & Hset & Hne & Hex).
  { unfold requiredSettings. rewrite Hin. set_solver. }
  by exists account.
Qed.

Lemma tracked_expenseAccount_valid_witness :
  ∃ account,
    Item.expenseAccount (Samples.fyoWith []) []
      (Item.mk (Some true) (Some "Product") None false) = Some account
    ∧ account ≠ ""
    ∧ account ∈ Samples.chart
    ∧ inventorySetting (Samples.fyoWith []) "stockReceivedButNotBilled"
      = Some account.
Proof.
  apply (tracked_expenseAccount_valid (Samples.fyoWith []) []
           (Item.mk (Some true) (Some "Product") None false)
           Samples.receipt).
  - reflexivity.
  - reflexivity.
  - vm_compute. reflexivity.
Defined.

(** ** First come, first served *)






(** The instance of the specification at the loop: two lines of item B, 5
    each, and 7 transferred; the first line becomes 0 and leaves 2, the
    second becomes 3. *)
Example residual_threaded_B :
  let rows :=
    [InvoiceItem.mk "B" 5 (Js.Number 5); InvoiceItem.mk "B" 5 (Js.Number 5)] in
  (updateRows false {[ "B" := 7 ]} rows).1
  = [InvoiceItem.mk "B" 5 (Js.Number 0); InvoiceItem.mk "B" 5 (Js.Number 3)]
  ∧ (updateRows false {[ "B" := 7 ]} (take 1 rows)).2 !! "B" = Some 2
  ∧ residualAfter false "B" 7 (take 1 rows) = 2.
Proof. vm_compute. done. Qed.

(** Two instances over several lines of one item.  With both lines
    untouched ([n = quantity]) a transfer of 7 is undone on both; with the
    first line partly transferred ([3] of [5] left) and a transfer of 4, the
    first line is not restorable and neither line comes back:
    [3 → 0 → 4] and [5 → 4 → 4]. *)
Example submit_then_cancel_two_lines :
  let submit lines := Samples.shipment Submitted lines in
  let cancel lines := Samples.shipment Cancelled lines in
  storedRows
    (reconcileAll sumOfLines
       (Samples.fyoWith [InvoiceItem.mk "B" 5 (Js.Number 5);
                         InvoiceItem.mk "B" 5 (Js.Number 5)])
       [submit [Samples.line "B" 7]; cancel [Samples.line "B" 7]])
    SalesInvoice "SINV-1"
  = [InvoiceItem.mk "B" 5 (Js.Number 5); InvoiceItem.mk "B" 5 (Js.Number 5)]
  ∧ storedRows
      (reconcileAll sumOfLines
         (Samples.fyoWith [InvoiceItem.mk "B" 5 (Js.Number 3);
                           InvoiceItem.mk "B" 5 (Js.Number 5)])
         [submit [Samples.line "B" 4]; cancel [Samples.line "B" 4]])
      SalesInvoice "SINV-1"
    = [InvoiceItem.mk "B" 5 (Js.Number 4); InvoiceItem.mk "B" 5 (Js.Number 4)]
  ∧ restorable {[ "B" := 4 ]}
      [InvoiceItem.mk "B" 5 (Js.Number 3); InvoiceItem.mk "B" 5 (Js.Number 5)]
    = false.
Proof. vm_compute. done. Qed.
